(** * Fashion recommender: pivot, cosine similarity and the two rankers

    A shallow embedding of [src/recommender/model.py].

    The program is written against pandas and scikit-learn.  The frames it
    passes around are modelled by their labels and their cells:

    - identifiers ([User_ID], [Item_ID]) are integers, [Z];
    - a rating is a number; float64 values are idealised as exact rationals
      [Q], and an absent cell (pandas [NaN]) is [None];
    - a [Series] is the list of its (label, value) pairs, in position order;
    - a [DataFrame] is its column labels and its labelled rows; labels are
      distinct on each axis in every frame the program builds (the axes of a
      pivot are group keys), and [loc] is the lookup of the row of a label;
    - a call that raises in Python returns [Raise e] here.

    Cosine similarity needs square roots, so the similarity engine is stated
    over the real numbers [R] (exact arithmetic, no rounding).  The rankers
    only compare similarities, so they are written once for any cell type with
    a strict order test and are run on rationals in the examples. *)

From Stdlib Require Import List ZArith QArith Qreduction Bool Lia.
From Stdlib Require Import Permutation Sorted.
From Stdlib Require Import Reals Qreals Lra.
From Stdlib Require Lqa.
From Stdlib Require String.
Import ListNotations.

Set Implicit Arguments.

(** ** Exceptions *)

Inductive exn : Type :=
| KeyError
| ValueError.

Inductive result (A : Type) : Type :=
| Ok (a : A)
| Raise (e : exn).

Arguments Ok {A} a.
Arguments Raise {A} e.

Definition bind {A B : Type} (c : result A) (k : A -> result B) : result B :=
  match c with
  | Ok a => k a
  | Raise e => Raise e
  end.

Notation "x <- c ;; k" := (bind c (fun x => k))
  (at level 61, c at next level, right associativity).

(** ** Series and frames *)

Definition Series (V : Type) : Type := list (Z * V).

Record DataFrame (V : Type) : Type := mkFrame {
  columns : list Z;
  rows : list (Z * list V)
}.

(** [df.index] *)
Definition index {V : Type} (df : DataFrame V) : list Z :=
  map fst (rows df).

(** [label in df.index] *)
Definition contains (label : Z) (labels : list Z) : bool :=
  existsb (Z.eqb label) labels.

Fixpoint lookup_row {V : Type} (label : Z) (rs : list (Z * list V))
  : option (list V) :=
  match rs with
  | [] => None
  | (l, r) :: rest => if Z.eqb label l then Some r else lookup_row label rest
  end.

(** [df.loc[label]]: the row as a Series labelled by the columns; [KeyError]
    when the label is not in the index. *)
Definition loc {V : Type} (df : DataFrame V) (label : Z) : result (Series V) :=
  match lookup_row label (rows df) with
  | Some r => Ok (combine (columns df) r)
  | None => Raise KeyError
  end.

(** The cell at row [a], column [b], when both labels exist. *)
Fixpoint lookup {V : Type} (label : Z) (s : Series V) : option V :=
  match s with
  | [] => None
  | (l, v) :: rest => if Z.eqb label l then Some v else lookup label rest
  end.

Definition cell {V : Type} (df : DataFrame V) (a b : Z) : option V :=
  match loc df a with
  | Ok s => lookup b s
  | Raise _ => None
  end.

(** [s.dropna()] *)
Definition dropna (s : Series (option Q)) : Series (option Q) :=
  filter (fun c => match snd c with Some _ => true | None => false end) s.

(** [l[:n]] with Python's reading of a negative bound. *)
Definition slice_to {A : Type} (n : Z) (l : list A) : list A :=
  if (0 <=? n)%Z then firstn (Z.to_nat n) l
  else firstn (length l - Z.to_nat (- n)) l.

(** [list(dict.fromkeys(l))]: duplicates removed, first occurrences kept in
    order. *)
Fixpoint dict_fromkeys (l : list Z) : list Z :=
  match l with
  | [] => []
  | x :: t => x :: filter (fun y => negb (Z.eqb y x)) (dict_fromkeys t)
  end.

(** Strict comparison of float cells, on their rational idealisation. *)
Definition Qltb (a b : Q) : bool := negb (Qle_bool b a).

(** ** Pivot builder *)

Record RatingRecord : Type := mkRating {
  User_ID : Z;
  Item_ID : Z;
  Rating : Q
}.

Fixpoint insert_unique (x : Z) (l : list Z) : list Z :=
  match l with
  | [] => [x]
  | y :: t =>
      if (x <? y)%Z then x :: l
      else if (x =? y)%Z then l
      else y :: insert_unique x t
  end.

(** The sorted group keys of a [groupby]. *)
Definition sorted_unique (l : list Z) : list Z :=
  fold_right insert_unique [] l.

Definition group_ratings (u i : Z) (ratings_df : list RatingRecord) : list Q :=
  map Rating
    (filter (fun r => Z.eqb (User_ID r) u && Z.eqb (Item_ID r) i) ratings_df).

Definition Qsum (l : list Q) : Q := fold_right Qplus 0%Q l.

(** [aggfunc="mean"]; a pair with no record gives an absent cell. *)
Definition mean (l : list Q) : option Q :=
  match l with
  | [] => None
  | _ => Some (Qsum l / inject_Z (Z.of_nat (length l)))%Q
  end.

(** [ratings_df.pivot_table(index="User_ID", columns="Item_ID",
    values="Rating", aggfunc="mean")].  Every user and every item of the
    table has a record, so the all-NaN rows and columns that [pivot_table]
    would drop do not arise. *)
Definition build_pivot_table (ratings_df : list RatingRecord)
  : DataFrame (option Q) :=
  let users := sorted_unique (map User_ID ratings_df) in
  let items := sorted_unique (map Item_ID ratings_df) in
  mkFrame items
    (map (fun u => (u, map (fun i => mean (group_ratings u i ratings_df)) items))
       users).

(** ** Recommendation rankers *)

Section Ranking.

Context {V : Type}.
(** the strict order test of the similarity cells *)
Variable ltb : V -> V -> bool.

Fixpoint insert_desc (x : Z * V) (l : Series V) : Series V :=
  match l with
  | [] => [x]
  | y :: t => if ltb (snd x) (snd y) then y :: insert_desc x t else x :: l
  end.

(** [s.sort_values(ascending=False)].  pandas reverses the values, sorts
    them ascending and reverses the outcome, so entries with equal values
    keep their position order whenever the underlying sort keeps it (as
    NumPy's does on short arrays); the model fixes that order. *)
Definition sort_values_desc (s : Series V) : Series V :=
  fold_right insert_desc [] s.

(** [df.loc[id].sort_values(ascending=False).iloc[1:]] *)
Definition ranked_after_first (id : Z) (sim_df : DataFrame V)
  : result (Series V) :=
  row <- loc sim_df id ;;
  Ok (tl (sort_values_desc row)).

(** [user_ratings[user_ratings > min_rating_threshold].index.tolist()] *)
Definition high_rated_items (user_ratings : Series (option Q))
    (min_rating_threshold : Q) : list Z :=
  map fst
    (filter (fun c => match snd c with
                      | Some r => Qltb min_rating_threshold r
                      | None => false
                      end) user_ratings).

(** The loop over [similar_users.index]. *)
Fixpoint collect (pivot : DataFrame (option Q)) (neighbors : list Z)
    (min_rating_threshold : Q) (recommendations : list Z)
  : result (list Z) :=
  match neighbors with
  | [] => Ok recommendations
  | similar_user :: rest =>
      user_ratings <- loc pivot similar_user ;;
      collect pivot rest min_rating_threshold
        (recommendations ++ high_rated_items user_ratings min_rating_threshold)
  end.

Definition recommend_for_user (user_id : Z) (pivot : DataFrame (option Q))
    (user_similarity_df : DataFrame V) (n_recommendations : Z)
    (min_rating_threshold : Q) : result (list Z) :=
  if negb (contains user_id (index pivot)) then Ok []
  else
    similar_users <- ranked_after_first user_id user_similarity_df ;;
    recommendations <-
      collect pivot (map fst similar_users) min_rating_threshold [] ;;
    target <- loc pivot user_id ;;
    let already_rated := map fst (dropna target) in
    let unique_recs :=
      filter (fun i => negb (contains i already_rated))
        (dict_fromkeys recommendations) in
    Ok (slice_to n_recommendations unique_recs).

Definition recommend_similar_items (item_id : Z)
    (item_similarity_df : DataFrame V) (n_recommendations : Z)
  : result (list Z) :=
  if negb (contains item_id (index item_similarity_df)) then Ok []
  else
    series <- ranked_after_first item_id item_similarity_df ;;
    Ok (slice_to n_recommendations (map fst series)).

End Ranking.

(** ** Similarity engine *)

(** [pivot.fillna(0)] *)
Definition fillna0 (pivot : DataFrame (option Q)) : DataFrame Q :=
  mkFrame (columns pivot)
    (map (fun r => (fst r, map (fun c => match c with
                                         | Some q => q
                                         | None => 0%Q
                                         end) (snd r)))
       (rows pivot)).

(** [df.T] *)
Definition transpose (df : DataFrame Q) : DataFrame Q :=
  mkFrame (index df)
    (map (fun jc => (snd jc, map (fun r => nth (fst jc) (snd r) 0%Q) (rows df)))
       (combine (seq 0 (length (columns df))) (columns df))).

Module Cosine.

Local Open Scope R_scope.

Definition dot (u v : list R) : R :=
  fold_right Rplus 0 (map (fun p => fst p * snd p) (combine u v)).

(** the L2 norm of a row *)
Definition row_norm (u : list R) : R := sqrt (dot u u).

(** scikit-learn's zero handling: a zero norm is replaced by one, which
    leaves an all-zero row as it is. *)
Definition handle_zeros_in_scale (s : R) : R :=
  if Req_dec_T s 0 then 1 else s.

Definition normalize_row (u : list R) : list R :=
  map (fun x => x / handle_zeros_in_scale (row_norm u)) u.

Definition normalize (X : list (list R)) : list (list R) :=
  map normalize_row X.

(** [sklearn.metrics.pairwise.cosine_similarity(X)]: the input is checked
    (at least one sample and one feature, else [ValueError]), converted to
    floats, its rows are scaled to unit norm, and the result is the product
    of the scaled matrix with its transpose. *)
Definition cosine_similarity (X : DataFrame Q) : result (list (list R)) :=
  if (length (rows X) =? 0)%nat || (length (columns X) =? 0)%nat
  then Raise ValueError
  else
    let X_normalized := normalize (map (fun r => map Q2R (snd r)) (rows X)) in
    Ok (map (fun u => map (fun v => dot u v) X_normalized) X_normalized).

End Cosine.

(** The unit-norm float row of a rational row. *)
Definition unit_row (u : list Q) : list R :=
  Cosine.normalize_row (map Q2R u).

(** [pd.DataFrame(sim, index=labels, columns=labels)] *)
Definition labelled (labels : list Z) (sim : list (list R)) : DataFrame R :=
  mkFrame labels (combine labels sim).

Definition compute_user_similarity (pivot : DataFrame (option Q))
  : result (DataFrame R) :=
  let pivot_filled := fillna0 pivot in
  sim <- Cosine.cosine_similarity pivot_filled ;;
  Ok (labelled (index pivot) sim).

Definition compute_item_similarity (pivot : DataFrame (option Q))
  : result (DataFrame R) :=
  let pivot_filled := fillna0 pivot in
  sim <- Cosine.cosine_similarity (transpose pivot_filled) ;;
  Ok (labelled (columns pivot) sim).

(** Strict comparison of real cells. *)
Definition Rltb (a b : R) : bool := if Rlt_dec a b then true else false.

(** A frame whose shape agrees with its labels: distinct row labels,
    distinct column labels, every row as long as the column index. *)
Definition well_formed {V : Type} (df : DataFrame V) : Prop :=
  NoDup (index df) /\ NoDup (columns df) /\
  Forall (fun r => length (snd r) = length (columns df)) (rows df).

(** A similarity frame over a set of ids carries those ids on both axes. *)
Definition similarity_over {V : Type} (ids : list Z) (df : DataFrame V) : Prop :=
  index df = ids /\ columns df = ids.

(** ** Presentation helpers of the dashboard

    The pure parts of [src/app.py]: the image lookup and the layout of the
    item gallery.  What the gallery draws is returned as the list of the
    widgets it emits. *)

Module App.

Import String.
Local Open Scope string_scope.

Definition CATEGORY_IMAGE_URLS : list (string * list string) :=
  [
   ("Shirt",
    ["https://images.unsplash.com/photo-1520975922284-7b683fe724d3?w=800";
     "https://images.unsplash.com/photo-1602810318383-9e6f9fdb57fd?w=800"]);
   ("Pants",
    ["https://images.unsplash.com/photo-1541099649105-f69ad21f3246?w=800";
     "https://images.unsplash.com/photo-1542272604-787c3835535d?w=800"]);
   ("Shoes",
    ["https://images.unsplash.com/photo-1528701800489-20be3c2ea41f?w=800";
     "https://images.unsplash.com/photo-1519741497674-611481863552?w=800"]);
   ("Jacket",
    ["https://images.unsplash.com/photo-1520975594081-6f2aeb4b90b1?w=800";
     "https://images.unsplash.com/photo-1539533018447-63fcce2678e3?w=800"]);
   ("Hat",
    ["https://images.unsplash.com/photo-1521572267360-ee0c2909d518?w=800";
     "https://images.unsplash.com/photo-1520974735194-6d78e08c6c5d?w=800"]);
   ("Gloves",
    ["https://images.unsplash.com/photo-1516642499105-492ff3ac521e?w=800";
     "https://images.unsplash.com/photo-1546869956-37a7f2d2bc45?w=800"]);
   ("Sweater",
    ["https://images.unsplash.com/photo-1512436991641-6745cdb1723f?w=800";
     "https://images.unsplash.com/photo-1548372293-0c8f6d5f3d7d?w=800"]);
   ("Dress",
    ["https://images.unsplash.com/photo-1445205170230-053b83016050?w=800";
     "https://images.unsplash.com/photo-1490481651871-ab68de25d43d?w=800"]);
   ("Scarf",
    ["https://images.unsplash.com/photo-1519689680058-324335c77eba?w=800";
     "https://images.unsplash.com/photo-1516826957135-700dedea698c?w=800"]);
   ("Boots",
    ["https://images.unsplash.com/photo-1525966222134-fcfa99b8ae77?w=800";
     "https://images.unsplash.com/photo-1542314831-068cd1dbfeeb?w=800"])
  ].

(** [d.get(key)] *)
Fixpoint get (key : string) (d : list (string * list string))
  : option (list string) :=
  match d with
  | [] => None
  | (k, v) :: rest => if String.eqb key k then Some v else get key rest
  end.

Definition fallback : string :=
  "https://images.unsplash.com/photo-1490111718993-d98654ce6cf7?w=800".

(** [_item_image_url(item_id, category)]; [None] stands for an [IndexError]
    of the final subscript. *)
Definition _item_image_url (item_id : option Z) (category : option string)
  : option string :=
  match category with
  | None => Some fallback
  | Some c =>
      if String.eqb c "" then Some fallback
      else
        match get c CATEGORY_IMAGE_URLS with
        | None => Some fallback
        | Some [] => Some fallback
        | Some urls =>
            match item_id with
            | None => nth_error urls 0
            | Some i =>
                nth_error urls (Z.to_nat (i mod Z.of_nat (List.length urls)))
            end
        end
  end.

(** A row of the frame handed to the gallery. *)
Record Item : Type := mkItem {
  Item_ID : Z;
  Category : option string;
  Price : option Q
}.

(** What a card shows: the item, and the image chosen for it. *)
Record Card : Type := mkCard {
  card_item : Item;
  card_image : string
}.

Inductive Widget : Type :=
| Info (msg : string)
| Markdown (body : string)
| Columns (cards : list Card).

Inductive GalleryError : Type :=
| ZeroDivisionError
| InvalidColumnSpec
| IndexError.

(** [items_df.drop_duplicates("Item_ID")]: the first row of every item. *)
Fixpoint drop_duplicates (items_df : list Item) : list Item :=
  match items_df with
  | [] => []
  | x :: t =>
      x :: filter (fun y => negb (Z.eqb (Item_ID y) (Item_ID x)))
             (drop_duplicates t)
  end.

(** The inner loop over the columns of one row: it stops at the first
    column for which no item is left. *)
Fixpoint fill_columns (cols : nat) (iterator : list Item) (idx : nat)
  : GalleryError + (list Card * nat) :=
  match cols with
  | O => inr ([], idx)
  | S k =>
      match nth_error iterator idx with
      | None => inr ([], idx)
      | Some item =>
          match _item_image_url (Some (Item_ID item)) (Category item) with
          | None => inl IndexError
          | Some url =>
              match fill_columns k iterator (S idx) with
              | inl e => inl e
              | inr (cards, idx') => inr (mkCard item url :: cards, idx')
              end
          end
      end
  end.

(** The outer loop over [range(rows)]; [st.columns] rejects a count that is
    not positive. *)
Fixpoint render_rows (rows : nat) (cols_per_row : Z) (iterator : list Item)
    (idx : nat) : GalleryError + list Widget :=
  match rows with
  | O => inr []
  | S r =>
      if (cols_per_row <=? 0)%Z then inl InvalidColumnSpec
      else
        match fill_columns (Z.to_nat cols_per_row) iterator idx with
        | inl e => inl e
        | inr (cards, idx') =>
            match render_rows r cols_per_row iterator idx' with
            | inl e => inl e
            | inr rest => inr (Columns cards :: rest)
            end
        end
  end.

Definition render_item_gallery (items_df : list Item) (title : string)
    (cols_per_row : Z) : GalleryError + list Widget :=
  match items_df with
  | [] => inr [Info "No items to display."]
  | _ =>
      let unique_items := drop_duplicates items_df in
      if (cols_per_row =? 0)%Z then inl ZeroDivisionError
      else
        let rows :=
          ((Z.of_nat (List.length unique_items) + cols_per_row - 1)
             / cols_per_row)%Z in
        match render_rows (Z.to_nat rows) cols_per_row unique_items 0 with
        | inl e => inl e
        | inr widgets => inr (Markdown ("**" ++ title ++ "**") :: widgets)
        end
  end.

(** The cards of a widget list, in drawing order. *)
Fixpoint cards_of (widgets : list Widget) : list Card :=
  match widgets with
  | [] => []
  | Columns cards :: rest => (cards ++ cards_of rest)%list
  | _ :: rest => cards_of rest
  end.

End App.

(** ** The dashboard's table and its recommendation gallery *)

(** A row of [data_df]: the rating and the item's metadata. *)
Record DataRow : Type := mkDataRow {
  row_rating : RatingRecord;
  row_Category : option String.string;
  row_Price : option Q
}.

(** The [Item_ID], [Category], [Price] columns of a row. *)
Definition meta_cols (r : DataRow) : App.Item :=
  App.mkItem (Item_ID (row_rating r)) (row_Category r) (row_Price r).

(** [data_df[data_df["Item_ID"].isin(recs)][meta_cols]] *)
Definition recommended_items_frame (data_df : list DataRow) (recs : list Z)
  : list App.Item :=
  map meta_cols
    (filter (fun r => contains (Item_ID (row_rating r)) recs) data_df).

(** [build_pivot_table(data_df)]: the pivot reads the three rating columns. *)
Definition pivot_of (data_df : list DataRow) : DataFrame (option Q) :=
  build_pivot_table (map row_rating data_df).

(** ** Sample-data generator

    [generate_synthetic_fashion_data] of [src/recommender/data.py].  Python's
    generator is taken as it is used: a hidden state, [random.seed], the
    bounded draw [_randbelow] on which [randint] and [choice] are built, and
    the price draw [round(random.uniform(lo, hi), 2)].  The state is passed
    explicitly and returned with the table. *)

Module Data.

Import String.
Local Open Scope string_scope.

Inductive GenError : Type :=
| EmptyRange      (* ValueError: empty range in randint *)
| EmptySequence   (* IndexError: choice from an empty sequence *)
| BadIndex        (* IndexError: list index out of range *)
| MissingKey.     (* KeyError: key not in the dict *)

Definition default_categories : list string :=
  ["Shirt"; "Pants"; "Shoes"; "Jacket"; "Hat"; "Gloves"; "Sweater"; "Dress";
   "Scarf"; "Boots"].

(** [l[i]] with Python's reading of a negative index. *)
Definition py_index {A : Type} (l : list A) (i : Z) : option A :=
  let j := if (i <? 0)%Z then (i + Z.of_nat (List.length l))%Z else i in
  if (j <? 0)%Z then None else nth_error l (Z.to_nat j).

(** [[f(x) for x in l]] for an [f] that may fail. *)
Fixpoint traverse {A B : Type} (e : GenError) (f : A -> option B) (l : list A)
  : GenError + list B :=
  match l with
  | [] => inr []
  | x :: t =>
      match f x with
      | None => inl e
      | Some y =>
          match traverse e f t with
          | inl e' => inl e'
          | inr ys => inr (y :: ys)
          end
      end
  end.

Section Generator.

(** the state of the [random] module *)
Variable rng : Type.
(** [random.seed(s)]: the state depends on [s] alone *)
Variable seed_state : Z -> rng.
(** [_randbelow(n)] *)
Variable randbelow : Z -> rng -> nat * rng.
(** [round(random.uniform(lo, hi), 2)] *)
Variable uniform_rounded : Q -> Q -> rng -> Q * rng.

(** [random.randint(a, b)] *)
Definition randint (a b : Z) (g : rng) : GenError + (Z * rng) :=
  if (b - a + 1 <=? 0)%Z then inl EmptyRange
  else
    let (k, g') := randbelow (b - a + 1) g in
    inr ((a + Z.of_nat k)%Z, g').

(** [random.choice(seq)] *)
Definition choice {A : Type} (seq : list A) (g : rng)
  : GenError + (A * rng) :=
  match seq with
  | [] => inl EmptySequence
  | _ =>
      let (k, g') := randbelow (Z.of_nat (List.length seq)) g in
      match nth_error seq k with
      | Some x => inr (x, g')
      | None => inl BadIndex
      end
  end.

(** [[draw() for _ in range(n)]] *)
Fixpoint repeat_draw {A : Type} (n : nat)
    (draw : rng -> GenError + (A * rng)) (g : rng)
  : GenError + (list A * rng) :=
  match n with
  | O => inr ([], g)
  | S k =>
      match draw g with
      | inl e => inl e
      | inr (x, g1) =>
          match repeat_draw k draw g1 with
          | inl e => inl e
          | inr (xs, g2) => inr (x :: xs, g2)
          end
      end
  end.

Definition generate_synthetic_fashion_data (num_users num_items : Z)
    (categories : option (list string)) (price_range : Q * Q)
    (seed : option Z) (g : rng) : GenError + (list DataRow * rng) :=
  let g0 := match seed with Some s => seed_state s | None => g end in
  let categories :=
    match categories with Some c => c | None => default_categories end in
  let n_rows := Z.to_nat (num_users * 10) in
  match repeat_draw n_rows (randint 1 num_users) g0 with
  | inl e => inl e
  | inr (user_ids, g1) =>
  match repeat_draw n_rows (randint 1 num_items) g1 with
  | inl e => inl e
  | inr (item_ids, g2) =>
  match repeat_draw n_rows (randint 1 5) g2 with
  | inl e => inl e
  | inr (ratings, g3) =>
  match repeat_draw (Z.to_nat num_items) (choice categories) g3 with
  | inl e => inl e
  | inr (item_categories, g4) =>
  match repeat_draw (Z.to_nat num_items)
          (fun s => inr (uniform_rounded (fst price_range) (snd price_range) s))
          g4 with
  | inl e => inl e
  | inr (price_values, g5) =>
      let prices :=
        combine (map Z.of_nat (seq 1 (Z.to_nat num_items))) price_values in
      match traverse BadIndex
              (fun item_id => py_index item_categories (item_id - 1)) item_ids
      with
      | inl e => inl e
      | inr category_column =>
      match traverse MissingKey (fun item_id => lookup item_id prices) item_ids
      with
      | inl e => inl e
      | inr price_column =>
          inr (map (fun r =>
                      mkDataRow
                        (mkRating (fst r) (fst (snd r))
                                  (inject_Z (fst (snd (snd r)))))
                        (Some (fst (snd (snd (snd r)))))
                        (Some (snd (snd (snd (snd r))))))
                 (combine user_ids
                    (combine item_ids
                       (combine ratings
                          (combine category_column price_column)))),
               g5)
      end
      end
  end
  end
  end
  end
  end.

End Generator.

End Data.

(** ** Shapes of similarity frames *)

(** Square over [ids] on both axes and symmetric. *)
Definition square_symmetric_over (ids : list Z) (s : DataFrame R) : Prop :=
  similarity_over ids s /\
  length (rows s) = length ids /\
  Forall (fun r => length (snd r) = length ids) (rows s) /\
  forall a b, cell s a b = cell s b a.



(** ** Sample tables *)

(** The scenario of the specification: two users, three items. *)
Definition scenario_ratings : list RatingRecord :=
  [mkRating 1 10 5; mkRating 1 20 1;
   mkRating 2 10 5; mkRating 2 20 5; mkRating 2 30 4].

(** A rational similarity frame over users 1 and 2. *)
Definition scenario_similarity : DataFrame Q :=
  mkFrame [1; 2]%Z [(1%Z, [1; 0.7]%Q); (2%Z, [0.7; 1]%Q)].



(** Users 1 and 2 gave the same rating to the same single item. *)
Definition twin_user_ratings : list RatingRecord :=
  [mkRating 1 10 5; mkRating 2 10 5].

(** Items 10 and 20 were rated alike by the same single user. *)
Definition twin_item_ratings : list RatingRecord :=
  [mkRating 1 10 5; mkRating 1 20 5].

(** User 2's only rating is a zero. *)
Definition zero_row_ratings : list RatingRecord :=
  [mkRating 1 10 5; mkRating 1 20 5; mkRating 2 10 0].

(** Users 1 and 2 both rate item 10 highly; user 3 has rated item 30 only. *)
Definition shared_item_ratings : list RatingRecord :=
  [mkRating 1 10 5; mkRating 1 30 2; mkRating 2 10 4; mkRating 2 20 5;
   mkRating 3 30 1].

(** A rational similarity frame over users 1, 2 and 3. *)
Definition shared_item_similarity : DataFrame Q :=
  mkFrame [1; 2; 3]%Z
    [(1%Z, [1; 0.5; 0.4]%Q); (2%Z, [0.5; 1; 0.2]%Q); (3%Z, [0.4; 0.2; 1]%Q)].


(** Sample input of the gallery: item 10 occurs twice. *)
Module AppSamples.

Import String.
Local Open Scope string_scope.

Definition hat : option string := Some "Hat".

Definition gallery_title : string := "Recommended Items".

Definition sample_items : list App.Item :=
  [App.mkItem 10 (Some "Hat") (Some 25%Q);
   App.mkItem 20 (Some "Boots") (Some 80%Q);
   App.mkItem 10 (Some "Hat") (Some 25%Q);
   App.mkItem 30 (Some "Cape") None;
   App.mkItem 40 None (Some 12%Q)].

End AppSamples.

(** A small dashboard table: the scenario's ratings with metadata. *)
Definition scenario_table : list DataRow :=
  [mkDataRow (mkRating 1 10 5) AppSamples.hat (Some 25%Q);
   mkDataRow (mkRating 1 20 1) None (Some 40%Q);
   mkDataRow (mkRating 2 10 5) AppSamples.hat (Some 25%Q);
   mkDataRow (mkRating 2 20 5) None (Some 40%Q);
   mkDataRow (mkRating 2 30 4) AppSamples.hat None].

(** A small congruential generator, to run the sample-data generator. *)
Module SampleRng.

Definition seed_state (s : Z) : Z := s.

Definition next (g : Z) : Z := ((g * 1103515245 + 12345) mod 2147483648)%Z.

Definition randbelow (n : Z) (g : Z) : nat * Z :=
  (Z.to_nat (g mod n), next g).

Definition uniform_rounded (lo hi : Q) (g : Z) : Q * Z :=
  ((lo + (hi - lo) * (inject_Z (g mod 101) / 100))%Q, next g).

End SampleRng.

(** * Properties *)

(** ** Labels, lookups and slices *)

Lemma contains_In (x : Z) (l : list Z) : contains x l = true <-> In x l.
Proof.
  unfold contains. rewrite existsb_exists. split.
  - intros [y [Hy Heq]]. apply Z.eqb_eq in Heq. now subst.
  - intros H. exists x. split; [assumption | apply Z.eqb_refl].
Qed.

Lemma contains_not_In (x : Z) (l : list Z) : contains x l = false <-> ~ In x l.
Proof.
  rewrite <- contains_In. destruct (contains x l); split; intros H;
    try discriminate; try reflexivity; try (intros K; discriminate).
  now elim H.
Qed.

Lemma lookup_row_Some_iff {V : Type} (label : Z) (rs : list (Z * list V)) :
  (exists r, lookup_row label rs = Some r) <-> In label (map fst rs).
Proof.
  induction rs as [| [l r] rest IH]; simpl.
  - split; [intros [r H]; discriminate | tauto].
  - destruct (Z.eqb_spec label l) as [-> | Hne].
    + split; [tauto | intros _; now exists r].
    + rewrite IH. split; [tauto | intros [H | H]; [now elim Hne | assumption]].
Qed.

Lemma loc_Ok_iff {V : Type} (df : DataFrame V) (label : Z) :
  (exists s, loc df label = Ok s) <-> In label (index df).
Proof.
  unfold loc, index. rewrite <- lookup_row_Some_iff. split.
  - intros [s H]. destruct (lookup_row label (rows df)) as [r |]; [now exists r | discriminate].
  - intros [r ->]. now eexists.
Qed.

Lemma loc_labels {V : Type} (df : DataFrame V) (label : Z) (s : Series V) :
  loc df label = Ok s -> incl (map fst s) (columns df).
Proof.
  unfold loc. destruct (lookup_row label (rows df)) as [r |]; [| discriminate].
  intros [= <-] x Hx. apply in_map_iff in Hx. destruct Hx as [[a b] [<- Hin]].
  now apply in_combine_l in Hin.
Qed.

Lemma firstn_incl {A : Type} (k : nat) (l : list A) : incl (firstn k l) l.
Proof.
  intros x Hx. rewrite <- (firstn_skipn k l). apply in_or_app. now left.
Qed.

Lemma slice_to_incl {A : Type} (n : Z) (l : list A) : incl (slice_to n l) l.
Proof.
  unfold slice_to. destruct (0 <=? n)%Z; apply firstn_incl.
Qed.

Lemma slice_to_0 {A : Type} (l : list A) : slice_to 0 l = [].
Proof. reflexivity. Qed.

(** ** The descending sort *)

Section RankingFacts.

Context {V : Type}.
Variable ltb : V -> V -> bool.

Lemma insert_desc_perm (x : Z * V) (l : Series V) :
  Permutation (x :: l) (insert_desc ltb x l).
Proof.
  induction l as [| y t IH]; simpl.
  - apply Permutation_refl.
  - destruct (ltb (snd x) (snd y)).
    + eapply perm_trans; [apply perm_swap |]. now apply perm_skip.
    + apply Permutation_refl.
Qed.

Lemma sort_values_desc_perm (s : Series V) :
  Permutation s (sort_values_desc ltb s).
Proof.
  induction s as [| x t IH]; simpl.
  - apply perm_nil.
  - eapply perm_trans; [| apply insert_desc_perm]. now apply perm_skip.
Qed.

(** With an order test that is asymmetric and whose negation is
    transitive, the outcome is in descending order. *)
Lemma insert_desc_sorted (x : Z * V) (l : Series V) :
  (forall a b, ltb a b = true -> ltb b a = false) ->
  (forall a b c, ltb a b = false -> ltb b c = false -> ltb a c = false) ->
  StronglySorted (fun p q => ltb (snd p) (snd q) = false) l ->
  StronglySorted (fun p q => ltb (snd p) (snd q) = false) (insert_desc ltb x l).
Proof.
  intros Hasym Htrans. induction l as [| y t IH]; simpl; intros Hs.
  - constructor; constructor.
  - inversion Hs as [| ? ? Ht Hy]; subst.
    destruct (ltb (snd x) (snd y)) eqn:E.
    + constructor; [now apply IH |].
      apply Forall_forall. intros z Hz.
      apply (Permutation_in _ (Permutation_sym (insert_desc_perm x t))) in Hz.
      destruct Hz as [<- | Hz]; [now apply Hasym |].
      rewrite Forall_forall in Hy. now apply Hy.
    + constructor; [assumption |]. constructor; [assumption |].
      rewrite Forall_forall in Hy |- *. intros z Hz.
      apply (Htrans _ (snd y)); [assumption | now apply Hy].
Qed.

Lemma sort_values_desc_sorted (s : Series V) :
  (forall a b, ltb a b = true -> ltb b a = false) ->
  (forall a b c, ltb a b = false -> ltb b c = false -> ltb a c = false) ->
  StronglySorted (fun p q => ltb (snd p) (snd q) = false)
    (sort_values_desc ltb s).
Proof.
  intros Hasym Htrans. induction s as [| x t IH]; simpl.
  - constructor.
  - now apply insert_desc_sorted.
Qed.

Lemma ranked_after_first_labels (id : Z) (sim_df : DataFrame V) (s : Series V) :
  ranked_after_first ltb id sim_df = Ok s ->
  incl (map fst s) (columns sim_df).
Proof.
  unfold ranked_after_first. destruct (loc sim_df id) as [row |] eqn:Hloc;
    simpl; [| discriminate].
  intros [= <-] x Hx. apply (loc_labels _ _ Hloc).
  apply in_map_iff in Hx. destruct Hx as [c [<- Hc]].
  apply in_map. apply (Permutation_in _ (Permutation_sym (sort_values_desc_perm row))).
  destruct (sort_values_desc ltb row); simpl in Hc; [contradiction | now right].
Qed.

Lemma ranked_after_first_Ok (id : Z) (sim_df : DataFrame V) :
  In id (index sim_df) -> exists s, ranked_after_first ltb id sim_df = Ok s.
Proof.
  intros H. apply loc_Ok_iff in H. destruct H as [row Hrow].
  unfold ranked_after_first. rewrite Hrow. simpl. now eexists.
Qed.

End RankingFacts.

Lemma Qltb_lt (a b : Q) : Qltb a b = true <-> (a < b)%Q.
Proof.
  unfold Qltb. rewrite negb_true_iff. split.
  - intros H. destruct (Qlt_le_dec a b) as [Hlt | Hle]; [assumption |].
    apply Qle_bool_iff in Hle. congruence.
  - intros H. destruct (Qle_bool b a) eqn:E; [| reflexivity].
    apply Qle_bool_iff in E. exfalso. apply (Qlt_not_le _ _ H E).
Qed.

Lemma Qltb_ge (a b : Q) : Qltb a b = false <-> (b <= a)%Q.
Proof.
  unfold Qltb. rewrite negb_false_iff. apply Qle_bool_iff.
Qed.

(** On rational cells the sort puts the larger similarities first. *)
Lemma sort_values_desc_Q (s : Series Q) :
  StronglySorted (fun p q => (snd q <= snd p)%Q) (sort_values_desc Qltb s).
Proof.
  assert (H : StronglySorted (fun p q => Qltb (snd p) (snd q) = false)
                (sort_values_desc Qltb s)).
  { apply sort_values_desc_sorted.
    - intros a b Hab. apply Qltb_lt in Hab. apply Qltb_ge.
      now apply Qlt_le_weak.
    - intros a b c Hab Hbc. apply Qltb_ge in Hab, Hbc. apply Qltb_ge.
      now apply (Qle_trans _ b). }
  induction H as [| p l Hl IH Hp]; constructor; [assumption |].
  eapply Forall_impl; [| exact Hp]. intros q Hq. now apply Qltb_ge.
Qed.

(** ** The neighbour walk *)

Lemma high_rated_items_In (s : Series (option Q)) (thr : Q) (i : Z) :
  In i (high_rated_items s thr) <->
  exists r, In (i, Some r) s /\ (thr < r)%Q.
Proof.
  unfold high_rated_items. rewrite in_map_iff. split.
  - intros [[l c] [Hl Hin]]. simpl in Hl. subst l.
    apply filter_In in Hin. destruct Hin as [Hin Hc]. simpl in Hc.
    destruct c as [r |]; [| discriminate]. exists r. split; [assumption |].
    now apply Qltb_lt.
  - intros [r [Hin Hlt]]. exists (i, Some r). split; [reflexivity |].
    apply filter_In. split; [assumption |]. simpl. now apply Qltb_lt.
Qed.

Lemma collect_In (pivot : DataFrame (option Q)) (thr : Q) (neighbors : list Z) :
  forall acc recs,
    collect pivot neighbors thr acc = Ok recs ->
    forall i, In i recs <->
      In i acc \/
      exists u row, In u neighbors /\ loc pivot u = Ok row /\
                    In i (high_rated_items row thr).
Proof.
  induction neighbors as [| u rest IH]; simpl; intros acc recs H i.
  - injection H as <-. split; [tauto |].
    intros [Hi | [u [row [[] _]]]]. assumption.
  - destruct (loc pivot u) as [row |] eqn:Hloc; simpl in H; [| discriminate].
    rewrite (IH _ _ H i), in_app_iff. split.
    + intros [[Hi | Hi] | [v [rv [Hv [Hlv Hi]]]]].
      * now left.
      * right. exists u, row. tauto.
      * right. exists v, rv. tauto.
    + intros [Hi | [v [rv [[<- | Hv] [Hlv Hi]]]]].
      * left. now left.
      * left. right. congruence.
      * right. exists v, rv. tauto.
Qed.

Lemma collect_Ok (pivot : DataFrame (option Q)) (thr : Q) (neighbors : list Z) :
  incl neighbors (index pivot) ->
  forall acc, exists recs, collect pivot neighbors thr acc = Ok recs.
Proof.
  induction neighbors as [| u rest IH]; simpl; intros Hincl acc.
  - now eexists.
  - assert (Hu : In u (index pivot)) by (apply Hincl; now left).
    apply loc_Ok_iff in Hu. destruct Hu as [row ->]. simpl.
    apply IH. intros x Hx. apply Hincl. now right.
Qed.

Lemma lookup_In {V : Type} (label : Z) (s : Series V) (v : V) :
  lookup label s = Some v -> In (label, v) s.
Proof.
  induction s as [| [l w] rest IH]; simpl; [discriminate |].
  destruct (Z.eqb_spec label l) as [-> | Hne].
  - intros [= ->]. now left.
  - intros H. right. now apply IH.
Qed.

(** ** The user-based ranker *)

Section UserRanker.

Context {V : Type}.
Variable ltb : V -> V -> bool.

(** With a similarity frame over the pivot's users, every lookup of the
    ranker succeeds and the call returns a list. *)
Lemma recommend_for_user_Ok (user_id : Z) (pivot : DataFrame (option Q))
    (usim : DataFrame V) (n : Z) (thr : Q) :
  similarity_over (index pivot) usim ->
  exists recs, recommend_for_user ltb user_id pivot usim n thr = Ok recs.
Proof.
  intros [Hidx Hcol]. unfold recommend_for_user.
  destruct (contains user_id (index pivot)) eqn:Hc; simpl; [| now eexists].
  apply contains_In in Hc.
  destruct (ranked_after_first_Ok ltb user_id usim) as [s Hs];
    [now rewrite Hidx |].
  rewrite Hs. simpl.
  destruct (collect_Ok pivot thr (neighbors := map fst s)) with (acc := @nil Z)
    as [recs Hrecs].
  { rewrite <- Hcol. exact (ranked_after_first_labels _ _ _ Hs). }
  rewrite Hrecs. simpl.
  apply loc_Ok_iff in Hc. destruct Hc as [row ->]. simpl. now eexists.
Qed.

(** What a returned list is made of. *)
Lemma recommend_for_user_inv (user_id : Z) (pivot : DataFrame (option Q))
    (usim : DataFrame V) (n : Z) (thr : Q) (recs : list Z) :
  recommend_for_user ltb user_id pivot usim n thr = Ok recs ->
  recs = [] \/
  exists similar_users recommendations target,
    ranked_after_first ltb user_id usim = Ok similar_users /\
    collect pivot (map fst similar_users) thr [] = Ok recommendations /\
    loc pivot user_id = Ok target /\
    recs = slice_to n
             (filter (fun i => negb (contains i (map fst (dropna target))))
                (dict_fromkeys recommendations)).
Proof.
  unfold recommend_for_user.
  destruct (contains user_id (index pivot)); simpl.
  - destruct (ranked_after_first ltb user_id usim) as [s |] eqn:Hs;
      simpl; [| discriminate].
    destruct (collect pivot (map fst s) thr []) as [rs |] eqn:Hrs;
      simpl; [| discriminate].
    destruct (loc pivot user_id) as [target |] eqn:Ht; simpl; [| discriminate].
    intros [= <-]. right. exists s, rs, target. repeat split; assumption.
  - intros [= <-]. now left.
Qed.

End UserRanker.

(** ** Claims on the rankers *)



(** C5: no item returned by [recommend_for_user] has a rating, of any value,
    in the target user's row of the pivot. *)
Theorem never_recommends_rated {V : Type} (ltb : V -> V -> bool)
    (user_id : Z) (pivot : DataFrame (option Q)) (usim : DataFrame V)
    (n : Z) (thr : Q) (recs : list Z) :
  recommend_for_user ltb user_id pivot usim n thr = Ok recs ->
  forall i, In i recs ->
    (forall row r, loc pivot user_id = Ok row -> ~ In (i, Some r) row) /\
    (forall r, cell pivot user_id i <> Some (Some r)).
Proof.
  intros H i Hi.
  assert (Hrow : forall row r, loc pivot user_id = Ok row -> ~ In (i, Some r) row).
  { intros row r Hloc Hin.
    destruct (recommend_for_user_inv _ _ _ _ _ _ H) as [-> | Hinv];
      [contradiction |].
    destruct Hinv as [s [rs [target [_ [_ [Ht ->]]]]]].
    apply slice_to_incl in Hi. apply filter_In in Hi. destruct Hi as [_ Hi].
    apply negb_true_iff, contains_not_In in Hi. apply Hi.
    assert (target = row) by congruence. subst target.
    apply in_map_iff. exists (i, Some r). split; [reflexivity |].
    apply filter_In. now split. }
  split; [exact Hrow |].
  intros r Hcell. unfold cell in Hcell.
  destruct (loc pivot user_id) as [row |] eqn:Hloc; [| discriminate].
  apply lookup_In in Hcell. exact (Hrow row r eq_refl Hcell).
Qed.

(** The scenario of the specification: user 1 is offered item 30 only, and
    item 30 is absent from user 1's row. *)
Lemma never_recommends_rated_witness :
  recommend_for_user Qltb 1 (build_pivot_table scenario_ratings)
    scenario_similarity 2 3 = Ok [30%Z] /\
  In 30%Z [30%Z] /\
  ((forall row r, loc (build_pivot_table scenario_ratings) 1 = Ok row ->
      ~ In (30%Z, Some r) row) /\
   (forall r, cell (build_pivot_table scenario_ratings) 1 30 <> Some (Some r))).
Proof.
  split; [reflexivity |]. split; [now left |].
  apply (never_recommends_rated Qltb 1 (build_pivot_table scenario_ratings)
           scenario_similarity 2 3 (recs := [30%Z])).
  - reflexivity.
  - now left.
Defined.

(** C9: an identifier that is not in the relevant index gives the empty list
    and no exception: [recommend_for_user] for a user outside the pivot's
    row index, [recommend_similar_items] for an item outside the index of the
    item-similarity frame. *)
Theorem unknown_identifier_gives_empty {V : Type} (ltb : V -> V -> bool)
    (pivot : DataFrame (option Q)) (usim isim : DataFrame V)
    (n : Z) (thr : Q) :
  (forall user_id, ~ In user_id (index pivot) ->
     recommend_for_user ltb user_id pivot usim n thr = Ok []) /\
  (forall item_id, ~ In item_id (index isim) ->
     recommend_similar_items ltb item_id isim n = Ok []).
Proof.
  split.
  - intros user_id H. apply contains_not_In in H.
    unfold recommend_for_user. now rewrite H.
  - intros item_id H. apply contains_not_In in H.
    unfold recommend_similar_items. now rewrite H.
Qed.

(** User 7 and item 7 are unknown to the scenario's frames. *)
Lemma unknown_identifier_gives_empty_witness :
  ~ In 7%Z (index (build_pivot_table scenario_ratings)) /\
  ~ In 7%Z (index scenario_similarity) /\
  recommend_for_user Qltb 7 (build_pivot_table scenario_ratings)
    scenario_similarity 5 4 = Ok [] /\
  recommend_similar_items Qltb 7 scenario_similarity 5 = Ok [].
Proof.
  assert (Hu : ~ In 7%Z (index (build_pivot_table scenario_ratings))).
  { simpl. intros [H | [H | []]]; discriminate. }
  assert (Hi : ~ In 7%Z (index scenario_similarity)).
  { simpl. intros [H | [H | []]]; discriminate. }
  split; [exact Hu |]. split; [exact Hi |].
  destruct (unknown_identifier_gives_empty Qltb
              (build_pivot_table scenario_ratings)
              scenario_similarity scenario_similarity 5 4) as [Huser Hitem].
  split; [exact (Huser 7%Z Hu) | exact (Hitem 7%Z Hi)].
Defined.

(** C10: with [n_recommendations = 0] both rankers return the empty list:
    [recommend_similar_items] on any frame and identifier, and
    [recommend_for_user] on any pivot and identifier with a similarity frame
    over the pivot's users. *)
Theorem zero_requested_gives_empty {V : Type} (ltb : V -> V -> bool)
    (pivot : DataFrame (option Q)) (usim isim : DataFrame V)
    (user_id item_id : Z) (thr : Q) :
  (similarity_over (index pivot) usim ->
     recommend_for_user ltb user_id pivot usim 0 thr = Ok []) /\
  recommend_similar_items ltb item_id isim 0 = Ok [].
Proof.
  split.
  - intros Hsim.
    destruct (recommend_for_user_Ok ltb user_id pivot 0 thr Hsim) as [recs H].
    rewrite H. f_equal.
    destruct (recommend_for_user_inv _ _ _ _ _ _ H) as [-> | Hinv];
      [reflexivity |].
    destruct Hinv as [s [rs [target [_ [_ [_ ->]]]]]]. apply slice_to_0.
  - unfold recommend_similar_items.
    destruct (contains item_id (index isim)) eqn:Hc; simpl; [| reflexivity].
    apply contains_In in Hc.
    destruct (ranked_after_first_Ok ltb item_id isim Hc) as [s ->].
    reflexivity.
Qed.

Lemma zero_requested_gives_empty_witness :
  similarity_over (index (build_pivot_table scenario_ratings))
    scenario_similarity /\
  recommend_for_user Qltb 1 (build_pivot_table scenario_ratings)
    scenario_similarity 0 3 = Ok [] /\
  recommend_similar_items Qltb 2 scenario_similarity 0 = Ok [].
Proof.
  assert (H : similarity_over (index (build_pivot_table scenario_ratings))
                scenario_similarity) by (split; reflexivity).
  split; [exact H |].
  destruct (zero_requested_gives_empty Qltb
              (build_pivot_table scenario_ratings)
              scenario_similarity scenario_similarity 1 2 3) as [Huser Hitem].
  split; [exact (Huser H) | exact Hitem].
Defined.

(** ** The pivot *)

Lemma insert_unique_In (x y : Z) (l : list Z) :
  In y (insert_unique x l) <-> y = x \/ In y l.
Proof.
  induction l as [| z t IH]; simpl.
  - intuition.
  - destruct (Z.ltb_spec x z); [simpl; intuition |].
    destruct (Z.eqb_spec x z) as [-> | Hne]; simpl; [intuition |].
    rewrite IH. intuition.
Qed.

Lemma insert_unique_sorted (x : Z) (l : list Z) :
  StronglySorted Z.lt l -> StronglySorted Z.lt (insert_unique x l).
Proof.
  induction l as [| z t IH]; simpl; intros Hs.
  - constructor; constructor.
  - inversion Hs as [| ? ? Ht Hz]; subst.
    destruct (Z.ltb_spec x z) as [Hlt | Hge].
    + constructor; [assumption |]. constructor; [assumption |].
      rewrite Forall_forall in Hz |- *. intros w Hw. specialize (Hz w Hw). lia.
    + destruct (Z.eqb_spec x z) as [-> | Hne]; [assumption |].
      constructor; [now apply IH |].
      rewrite Forall_forall in Hz |- *. intros w Hw.
      apply insert_unique_In in Hw. destruct Hw as [-> | Hw]; [lia | now apply Hz].
Qed.

Lemma sorted_unique_In (y : Z) (l : list Z) : In y (sorted_unique l) <-> In y l.
Proof.
  induction l as [| x t IH]; simpl; [tauto |].
  rewrite insert_unique_In, IH. intuition.
Qed.

Lemma sorted_unique_sorted (l : list Z) : StronglySorted Z.lt (sorted_unique l).
Proof.
  induction l as [| x t IH]; simpl; [constructor | now apply insert_unique_sorted].
Qed.

Lemma lookup_row_map {V : Type} (f : Z -> list V) (u : Z) (users : list Z) :
  In u users -> lookup_row u (map (fun w => (w, f w)) users) = Some (f u).
Proof.
  induction users as [| w t IH]; simpl; [contradiction |].
  intros H. destruct (Z.eqb_spec u w) as [-> | Hne]; [reflexivity |].
  apply IH. destruct H as [H | H]; [now elim Hne | assumption].
Qed.

Lemma lookup_combine_map {V : Type} (g : Z -> V) (i : Z) (items : list Z) :
  In i items -> lookup i (combine items (map g items)) = Some (g i).
Proof.
  induction items as [| w t IH]; simpl; [contradiction |].
  intros H. destruct (Z.eqb_spec i w) as [-> | Hne]; [reflexivity |].
  apply IH. destruct H as [H | H]; [now elim Hne | assumption].
Qed.

Lemma build_pivot_table_index (ratings_df : list RatingRecord) :
  index (build_pivot_table ratings_df) = sorted_unique (map User_ID ratings_df).
Proof.
  unfold index, build_pivot_table. simpl. rewrite map_map. simpl. apply map_id.
Qed.

Lemma group_ratings_nil (u i : Z) (ratings_df : list RatingRecord) :
  group_ratings u i ratings_df = [] <->
  ~ exists r, In r ratings_df /\ User_ID r = u /\ Item_ID r = i.
Proof.
  unfold group_ratings. split.
  - intros H [r [Hin [Hu Hi]]].
    assert (Hf : In r (filter (fun r => Z.eqb (User_ID r) u && Z.eqb (Item_ID r) i)
                         ratings_df)).
    { apply filter_In. split; [assumption |].
      subst. now rewrite !Z.eqb_refl. }
    apply (in_map Rating) in Hf. rewrite H in Hf. contradiction.
  - intros H.
    destruct (filter (fun r => Z.eqb (User_ID r) u && Z.eqb (Item_ID r) i)
                ratings_df) as [| r t] eqn:E; [reflexivity |].
    exfalso. apply H. exists r.
    assert (Hf : In r (r :: t)) by now left.
    rewrite <- E in Hf. apply filter_In in Hf. destruct Hf as [Hin Hb].
    apply andb_true_iff in Hb. destruct Hb as [Hu Hi].
    apply Z.eqb_eq in Hu, Hi. tauto.
Qed.

(** A pivot has distinct labels on both axes and full rows. *)
Lemma build_pivot_table_well_formed (ratings_df : list RatingRecord) :
  well_formed (build_pivot_table ratings_df).
Proof.
  assert (Hnd : forall l, NoDup (sorted_unique l)).
  { intros l. pose proof (sorted_unique_sorted l) as Hs.
    induction Hs as [| x t Ht IH Hx]; constructor; [| assumption].
    intros Hin. rewrite Forall_forall in Hx. specialize (Hx x Hin). lia. }
  split; [rewrite build_pivot_table_index; apply Hnd |].
  split; [apply Hnd |].
  unfold build_pivot_table. simpl. apply Forall_forall. intros r Hr.
  apply in_map_iff in Hr. destruct Hr as [u [<- _]]. simpl.
  apply length_map.
Qed.



(** ** Cosine similarity *)

Module CosineFacts.

Import Cosine.
Local Open Scope R_scope.

Lemma dot_comm (u v : list R) : dot u v = dot v u.
Proof.
  unfold dot. revert v.
  induction u as [| x u IH]; intros [| y v]; simpl; try reflexivity.
  rewrite IH. ring.
Qed.

Lemma dot_self_nonneg (u : list R) : 0 <= dot u u.
Proof.
  unfold dot. induction u as [| x u IH]; simpl; [lra |].
  pose proof (Rle_0_sqr x) as Hx. unfold Rsqr in Hx. lra.
Qed.

Lemma dot_self_pos (u : list R) :
  (exists x, In x u /\ x <> 0) -> 0 < dot u u.
Proof.
  intros [x [Hin Hx]]. induction u as [| y u IH]; [contradiction |].
  unfold dot in *. simpl.
  pose proof (dot_self_nonneg u) as Hu. unfold dot in Hu.
  pose proof (Rle_0_sqr y) as Hy. unfold Rsqr in Hy.
  destruct Hin as [-> | Hin].
  - assert (0 < x * x) by (apply Rsqr_pos_lt in Hx; exact Hx). lra.
  - specialize (IH Hin). lra.
Qed.

Lemma dot_scaled (a b : R) (u v : list R) :
  a <> 0 -> b <> 0 ->
  dot (map (fun x => x / a) u) (map (fun x => x / b) v) = dot u v / (a * b).
Proof.
  intros Ha Hb. unfold dot. revert v.
  induction u as [| x u IH]; intros [| y v]; simpl;
    try (field; split; assumption).
  rewrite IH. field. split; assumption.
Qed.

Lemma dot_zero_l (u v : list R) : Forall (fun x => x = 0) u -> dot u v = 0.
Proof.
  unfold dot. intros H. revert v.
  induction H as [| x u Hx _ IH]; intros [| y v]; simpl; try reflexivity.
  rewrite IH, Hx. ring.
Qed.

Lemma handle_zeros_in_scale_pos (u : list R) :
  0 < handle_zeros_in_scale (row_norm u).
Proof.
  unfold handle_zeros_in_scale, row_norm.
  destruct (Req_dec_T (sqrt (dot u u)) 0) as [_ | Hne]; [lra |].
  pose proof (sqrt_pos (dot u u)). lra.
Qed.

Lemma normalize_row_dot (u v : list R) :
  dot (normalize_row u) (normalize_row v) =
  dot u v / (handle_zeros_in_scale (row_norm u) *
             handle_zeros_in_scale (row_norm v)).
Proof.
  unfold normalize_row. apply dot_scaled.
  - pose proof (handle_zeros_in_scale_pos u). lra.
  - pose proof (handle_zeros_in_scale_pos v). lra.
Qed.

(** A non-zero row has cosine similarity one with itself. *)
Lemma normalize_row_self (u : list R) :
  (exists x, In x u /\ x <> 0) ->
  dot (normalize_row u) (normalize_row u) = 1.
Proof.
  intros Hnz. apply dot_self_pos in Hnz.
  rewrite normalize_row_dot. unfold handle_zeros_in_scale, row_norm.
  pose proof (sqrt_lt_R0 _ Hnz) as Hs.
  destruct (Req_dec_T (sqrt (dot u u)) 0) as [E | _]; [lra |].
  rewrite sqrt_sqrt by lra. field. lra.
Qed.

(** An all-zero row has cosine similarity zero with every row. *)
Lemma normalize_row_zero (u v : list R) :
  Forall (fun x => x = 0) u ->
  dot (normalize_row u) (normalize_row v) = 0.
Proof.
  intros H. rewrite normalize_row_dot, (dot_zero_l v H).
  unfold Rdiv. apply Rmult_0_l.
Qed.

(** The cosine of the angle, as the specification writes it. *)
Lemma normalize_row_cosine (u v : list R) :
  row_norm u <> 0 -> row_norm v <> 0 ->
  dot (normalize_row u) (normalize_row v) =
  dot u v / (row_norm u * row_norm v).
Proof.
  intros Hu Hv. rewrite normalize_row_dot. unfold handle_zeros_in_scale.
  destruct (Req_dec_T (row_norm u) 0); [contradiction |].
  destruct (Req_dec_T (row_norm v) 0); [contradiction |]. reflexivity.
Qed.

End CosineFacts.

(** ** Similarity frames *)

Section SimilarityFrames.

Import Cosine CosineFacts.

Lemma cosine_similarity_inv (X : DataFrame Q) (sim : list (list R)) :
  cosine_similarity X = Ok sim ->
  sim = map (fun r => map (fun r' => dot (unit_row (snd r)) (unit_row (snd r')))
                        (rows X)) (rows X).
Proof.
  unfold cosine_similarity.
  destruct ((length (rows X) =? 0)%nat || (length (columns X) =? 0)%nat);
    [discriminate |].
  intros [= <-]. unfold normalize. rewrite !map_map.
  apply map_ext. intros r. now rewrite !map_map.
Qed.

Lemma cosine_similarity_Ok (X : DataFrame Q) :
  rows X <> [] -> columns X <> [] ->
  exists sim, cosine_similarity X = Ok sim.
Proof.
  intros Hr Hc. unfold cosine_similarity.
  destruct (rows X); [contradiction |].
  destruct (columns X); [contradiction |]. simpl. now eexists.
Qed.

Lemma lookup_row_combine {W A : Type} (h : Z * W -> list A) (a : Z)
    (rs : list (Z * W)) :
  lookup_row a (combine (map fst rs) (map h rs)) =
  option_map h (find (fun r => Z.eqb a (fst r)) rs).
Proof.
  induction rs as [| [l w] rest IH]; simpl; [reflexivity |].
  destruct (Z.eqb a l); [reflexivity | exact IH].
Qed.

Lemma lookup_combine {W A : Type} (k : Z * W -> A) (b : Z)
    (rs : list (Z * W)) :
  lookup b (combine (map fst rs) (map k rs)) =
  option_map k (find (fun r => Z.eqb b (fst r)) rs).
Proof.
  induction rs as [| [l w] rest IH]; simpl; [reflexivity |].
  destruct (Z.eqb b l); [reflexivity | exact IH].
Qed.

Lemma lookup_row_find {A : Type} (a : Z) (rs : list (Z * list A)) :
  lookup_row a rs = option_map snd (find (fun r => Z.eqb a (fst r)) rs).
Proof.
  induction rs as [| [l w] rest IH]; simpl; [reflexivity |].
  destruct (Z.eqb a l); [reflexivity | exact IH].
Qed.

(** The cell of a similarity frame is the product of the two unit rows. *)
Lemma cosine_cell (X : DataFrame Q) (sim : list (list R)) (a b : Z) :
  cosine_similarity X = Ok sim ->
  cell (labelled (index X) sim) a b =
  match lookup_row a (rows X), lookup_row b (rows X) with
  | Some u, Some v => Some (dot (unit_row u) (unit_row v))
  | _, _ => None
  end.
Proof.
  intros H. rewrite (cosine_similarity_inv _ H).
  unfold cell, loc, labelled, index. simpl.
  rewrite lookup_row_combine, !lookup_row_find.
  destruct (find (fun r => Z.eqb a (fst r)) (rows X)) as [ra |]; simpl;
    [| reflexivity].
  rewrite lookup_combine.
  destruct (find (fun r => Z.eqb b (fst r)) (rows X)) as [rb |]; reflexivity.
Qed.

Lemma index_labelled (ids : list Z) (sim : list (list R)) :
  length sim = length ids -> index (labelled ids sim) = ids.
Proof.
  unfold index, labelled. simpl. revert sim.
  induction ids as [| i ids IH]; intros [| r sim]; simpl; try discriminate;
    [reflexivity |].
  intros [= H]. now rewrite IH.
Qed.

Lemma cosine_square_symmetric (X : DataFrame Q) (sim : list (list R)) :
  cosine_similarity X = Ok sim ->
  square_symmetric_over (index X) (labelled (index X) sim).
Proof.
  intros H.
  assert (Hlen : length sim = length (index X)).
  { rewrite (cosine_similarity_inv _ H). unfold index.
    now rewrite !length_map. }
  assert (Hrows : Forall (fun r => length r = length (index X)) sim).
  { rewrite (cosine_similarity_inv _ H). apply Forall_forall.
    intros r Hr. apply in_map_iff in Hr. destruct Hr as [x [<- _]].
    unfold index. now rewrite !length_map. }
  split; [split; [now apply index_labelled | reflexivity] |].
  split; [| split].
  - unfold labelled. simpl. rewrite length_combine, Hlen. apply Nat.min_id.
  - unfold labelled. simpl. apply Forall_forall. intros [l r] Hin.
    apply in_combine_r in Hin. rewrite Forall_forall in Hrows.
    now apply Hrows.
  - intros a b. rewrite !(@cosine_cell _ _ _ _ H).
    destruct (lookup_row a (rows X)) as [u |], (lookup_row b (rows X)) as [v |];
      try reflexivity.
    now rewrite dot_comm.
Qed.

Lemma Q2R_nonzero (u : list Q) :
  (exists q, In q u /\ ~ (q == 0)%Q) ->
  exists x, In x (map Q2R u) /\ x <> 0%R.
Proof.
  intros [q [Hin Hq]]. exists (Q2R q). split; [now apply in_map |].
  intros E. apply Hq. apply eqR_Qeq. rewrite E. unfold Q2R. simpl. lra.
Qed.

Lemma Q2R_zero (u : list Q) :
  Forall (fun q => (q == 0)%Q) u -> Forall (fun x => x = 0%R) (map Q2R u).
Proof.
  intros H. apply Forall_map. eapply Forall_impl; [| exact H].
  intros q Hq. simpl. rewrite (Qeq_eqR _ _ Hq). unfold Q2R. simpl. lra.
Qed.


Lemma index_fillna0 (pivot : DataFrame (option Q)) :
  index (fillna0 pivot) = index pivot.
Proof. unfold index, fillna0. simpl. now rewrite map_map. Qed.

Lemma map_snd_enumerate {A : Type} (l : list A) (k : nat) :
  map snd (combine (seq k (length l)) l) = l.
Proof.
  revert k. induction l as [| x l IH]; intros k; simpl; [reflexivity |].
  now rewrite IH.
Qed.

Lemma index_transpose (df : DataFrame Q) : index (transpose df) = columns df.
Proof.
  unfold index, transpose. simpl. rewrite map_map. simpl.
  apply map_snd_enumerate.
Qed.

Lemma compute_user_similarity_inv (pivot : DataFrame (option Q))
    (s : DataFrame R) :
  compute_user_similarity pivot = Ok s ->
  exists sim, cosine_similarity (fillna0 pivot) = Ok sim /\
              s = labelled (index (fillna0 pivot)) sim.
Proof.
  unfold compute_user_similarity.
  destruct (cosine_similarity (fillna0 pivot)) as [sim |]; simpl;
    [| discriminate].
  intros [= <-]. exists sim. now rewrite index_fillna0.
Qed.

Lemma compute_item_similarity_inv (pivot : DataFrame (option Q))
    (s : DataFrame R) :
  compute_item_similarity pivot = Ok s ->
  exists sim, cosine_similarity (transpose (fillna0 pivot)) = Ok sim /\
              s = labelled (index (transpose (fillna0 pivot))) sim.
Proof.
  unfold compute_item_similarity.
  destruct (cosine_similarity (transpose (fillna0 pivot))) as [sim |]; simpl;
    [| discriminate].
  intros [= <-]. exists sim. now rewrite index_transpose.
Qed.

End SimilarityFrames.

(** The item vectors of the scenario are the columns of its filled pivot. *)
Example transpose_scenario :
  transpose (fillna0 (build_pivot_table scenario_ratings)) =
  mkFrame [1; 2]%Z
    [(10%Z, [5; 5]%Q); (20%Z, [1; 5]%Q); (30%Z, [0; 4]%Q)].
Proof. reflexivity. Qed.

Lemma compute_user_similarity_Ok (pivot : DataFrame (option Q)) :
  rows pivot <> [] -> columns pivot <> [] ->
  exists s, compute_user_similarity pivot = Ok s.
Proof.
  intros Hr Hc. unfold compute_user_similarity.
  destruct (@cosine_similarity_Ok (fillna0 pivot)) as [sim ->].
  - unfold fillna0. simpl. destruct (rows pivot); [contradiction | discriminate].
  - exact Hc.
  - simpl. now eexists.
Qed.

Lemma compute_item_similarity_Ok (pivot : DataFrame (option Q)) :
  rows pivot <> [] -> columns pivot <> [] ->
  exists s, compute_item_similarity pivot = Ok s.
Proof.
  intros Hr Hc. unfold compute_item_similarity.
  destruct (@cosine_similarity_Ok (transpose (fillna0 pivot))) as [sim ->].
  - unfold transpose, fillna0. simpl.
    destruct (columns pivot); [contradiction | discriminate].
  - unfold transpose, fillna0, index. simpl.
    destruct (rows pivot); [contradiction | discriminate].
  - simpl. now eexists.
Qed.

(** ** Claims on the similarity engine *)

(** C8: the frames returned by [compute_user_similarity] and
    [compute_item_similarity] are square, carry the ids of the pivot's row
    axis (respectively column axis) on both of their axes, and are symmetric:
    the cell at (a, b) is the cell at (b, a).  On a pivot with at least one
    row and one column both functions do return a frame. *)
Theorem similarity_square_symmetric (pivot : DataFrame (option Q)) :
  (forall s, compute_user_similarity pivot = Ok s ->
             square_symmetric_over (index pivot) s) /\
  (forall s, compute_item_similarity pivot = Ok s ->
             square_symmetric_over (columns pivot) s) /\
  (rows pivot <> [] -> columns pivot <> [] ->
   exists us its, compute_user_similarity pivot = Ok us /\
                  compute_item_similarity pivot = Ok its).
Proof.
  split; [| split].
  - intros s H.
    apply compute_user_similarity_inv in H. destruct H as [sim [H ->]].
    rewrite <- index_fillna0. now apply cosine_square_symmetric.
  - intros s H.
    apply compute_item_similarity_inv in H. destruct H as [sim [H ->]].
    change (columns pivot) with (columns (fillna0 pivot)).
    rewrite <- index_transpose. now apply cosine_square_symmetric.
  - intros Hr Hc.
    destruct (@compute_user_similarity_Ok pivot Hr Hc) as [us Hus].
    destruct (@compute_item_similarity_Ok pivot Hr Hc) as [its Hits].
    now exists us, its.
Qed.

Lemma similarity_square_symmetric_witness :
  exists us its,
    compute_user_similarity (build_pivot_table scenario_ratings) = Ok us /\
    compute_item_similarity (build_pivot_table scenario_ratings) = Ok its /\
    square_symmetric_over [1; 2]%Z us /\
    square_symmetric_over [10; 20; 30]%Z its.
Proof.
  destruct (similarity_square_symmetric (build_pivot_table scenario_ratings))
    as [Hu [Hi _]].
  eexists. eexists.
  split; [reflexivity |]. split; [reflexivity |].
  split; [apply Hu | apply Hi]; reflexivity.
Defined.



(** ** Runs of the pipeline on the sample tables *)

Lemma Rltb_irrefl (x : R) : Rltb x x = false.
Proof.
  unfold Rltb. destruct (Rlt_dec x x) as [H | _]; [exfalso; lra | reflexivity].
Qed.

Lemma unit_rows_self (u : list Q) :
  (exists q, In q u /\ ~ (q == 0)%Q) ->
  Cosine.dot (Cosine.normalize_row (map Q2R u))
             (Cosine.normalize_row (map Q2R u)) = 1%R.
Proof.
  intros H. apply CosineFacts.normalize_row_self. now apply Q2R_nonzero.
Qed.

Lemma unit_rows_zero_l (u v : list Q) :
  Forall (fun q => (q == 0)%Q) u ->
  Cosine.dot (Cosine.normalize_row (map Q2R u))
             (Cosine.normalize_row (map Q2R v)) = 0%R.
Proof.
  intros H. apply CosineFacts.normalize_row_zero. now apply Q2R_zero.
Qed.

Lemma unit_rows_zero_r (u v : list Q) :
  Forall (fun q => (q == 0)%Q) v ->
  Cosine.dot (Cosine.normalize_row (map Q2R u))
             (Cosine.normalize_row (map Q2R v)) = 0%R.
Proof.
  intros H. rewrite CosineFacts.dot_comm. now apply unit_rows_zero_l.
Qed.

(** The user-similarity frame of the table in which user 2 only gave a
    zero. *)
Lemma zero_row_user_similarity :
  compute_user_similarity (build_pivot_table zero_row_ratings) =
  Ok (mkFrame [1; 2]%Z [(1%Z, [1; 0]%R); (2%Z, [0; 0]%R)]).
Proof.
  unfold compute_user_similarity.
  cbn -[Cosine.dot Cosine.normalize_row Q2R].
  assert (Hz : Forall (fun q => (q == 0)%Q) [((0 + 0) / inject_Z 1)%Q; 0%Q])
    by (repeat constructor).
  assert (Hnz : exists q, In q [((5 + 0) / inject_Z 1)%Q; ((5 + 0) / inject_Z 1)%Q] /\
                          ~ (q == 0)%Q).
  { eexists. split; [now left |]. intros E. vm_compute in E. discriminate. }
  pose proof (@unit_rows_self _ Hnz) as H11.
  pose proof (@unit_rows_zero_r [((5 + 0) / inject_Z 1)%Q; ((5 + 0) / inject_Z 1)%Q] _ Hz)
    as H12.
  pose proof (@unit_rows_zero_l _ [((5 + 0) / inject_Z 1)%Q; ((5 + 0) / inject_Z 1)%Q] Hz)
    as H21.
  pose proof (@unit_rows_zero_l _ [((0 + 0) / inject_Z 1)%Q; 0%Q] Hz) as H22.
  cbn [map] in H11, H12, H21, H22.
  rewrite H11, H12, H21, H22. reflexivity.
Qed.

(** C1: on the empty ratings table the pivot is empty and every ranking call
    on it returns the empty list, but [compute_user_similarity] and
    [compute_item_similarity] raise [ValueError]: the similarity routine
    rejects an array without samples. *)
Theorem empty_table_similarity_raises :
  build_pivot_table [] = mkFrame [] [] /\
  compute_user_similarity (build_pivot_table []) = Raise ValueError /\
  compute_item_similarity (build_pivot_table []) = Raise ValueError /\
  (forall (V : Type) (ltb : V -> V -> bool) (sim_df : DataFrame V)
          (id n : Z) (thr : Q),
     recommend_for_user ltb id (build_pivot_table []) sim_df n thr = Ok [] /\
     recommend_similar_items ltb id (mkFrame [] [] : DataFrame V) n = Ok []).
Proof.
  repeat split; reflexivity.
Qed.

(** C2: [recommend_for_user] drops the first entry of the sorted similarity
    row, which need not be the user.  Users 1 and 2 rated alike, so user 2's
    row holds 1.0 twice, user 1 comes first and is dropped, and user 2 is
    walked as its own neighbour.  When user 2's only rating is a zero, its
    row holds zeros only; again user 1 is dropped and user 2 walked, and the
    call returns nothing although the walk over user 1 yields item 20, which
    user 2 has not rated. *)
Theorem user_walks_itself_as_neighbour :
  (exists usim similar_users,
     compute_user_similarity (build_pivot_table twin_user_ratings) = Ok usim /\
     cell usim 2 1 = Some 1%R /\ cell usim 2 2 = Some 1%R /\
     ranked_after_first Rltb 2 usim = Ok similar_users /\
     map fst similar_users = [2%Z]) /\
  (exists usim similar_users,
     compute_user_similarity (build_pivot_table zero_row_ratings) = Ok usim /\
     ranked_after_first Rltb 2 usim = Ok similar_users /\
     map fst similar_users = [2%Z] /\
     recommend_for_user Rltb 2 (build_pivot_table zero_row_ratings) usim 5 4
       = Ok [] /\
     collect (build_pivot_table zero_row_ratings) [1%Z] 4 [] = Ok [10%Z; 20%Z] /\
     cell (build_pivot_table zero_row_ratings) 2 20 = Some None).
Proof.
  split.
  - eexists. eexists. split; [reflexivity |].
    assert (Hnz : exists q, In q [((5 + 0) / inject_Z 1)%Q] /\ ~ (q == 0)%Q).
    { eexists. split; [now left |]. intros E. vm_compute in E. discriminate. }
    pose proof (@unit_rows_self _ Hnz) as H1. cbn [map] in H1.
    split; [cbn -[Cosine.dot Cosine.normalize_row Q2R]; now rewrite H1 |].
    split; [cbn -[Cosine.dot Cosine.normalize_row Q2R]; now rewrite H1 |].
    split.
    + cbn -[Cosine.dot Cosine.normalize_row Q2R Rltb].
      rewrite Rltb_irrefl. reflexivity.
    + reflexivity.
  - exists (mkFrame [1; 2]%Z [(1%Z, [1; 0]%R); (2%Z, [0; 0]%R)]).
    eexists. split; [exact zero_row_user_similarity |].
    split; [| split; [| split; [| split]]].
    + cbn -[Rltb]. rewrite Rltb_irrefl. reflexivity.
    + reflexivity.
    + cbn -[Rltb]. rewrite Rltb_irrefl. reflexivity.
    + reflexivity.
    + reflexivity.
Qed.

(** C3: [recommend_similar_items] drops the first entry of the sorted
    similarity row, which need not be the item.  Items 10 and 20 were rated
    alike, so item 20's row holds 1.0 twice, item 10 comes first and is
    dropped, and the call for item 20 returns item 20 itself instead of
    item 10. *)
Theorem similar_items_returns_item_itself :
  exists isim,
    compute_item_similarity (build_pivot_table twin_item_ratings) = Ok isim /\
    cell isim 20 10 = Some 1%R /\ cell isim 20 20 = Some 1%R /\
    recommend_similar_items Rltb 20 isim 1 = Ok [20%Z] /\
    recommend_similar_items Rltb 20 isim 5 = Ok [20%Z].
Proof.
  eexists. split; [reflexivity |].
  assert (Hnz : exists q, In q [((5 + 0) / inject_Z 1)%Q] /\ ~ (q == 0)%Q).
  { eexists. split; [now left |]. intros E. vm_compute in E. discriminate. }
  pose proof (@unit_rows_self _ Hnz) as H1. cbn [map] in H1.
  split; [cbn -[Cosine.dot Cosine.normalize_row Q2R]; now rewrite H1 |].
  split; [cbn -[Cosine.dot Cosine.normalize_row Q2R]; now rewrite H1 |].
  split; cbn -[Cosine.dot Cosine.normalize_row Q2R Rltb];
    rewrite Rltb_irrefl; reflexivity.
Qed.

(** * Further properties of the rankers *)

Lemma dict_fromkeys_In (x : Z) (l : list Z) :
  In x (dict_fromkeys l) <-> In x l.
Proof.
  induction l as [| y t IH]; simpl; [tauto |].
  rewrite filter_In, IH, negb_true_iff, Z.eqb_neq.
  destruct (Z.eq_dec y x) as [-> | Hne]; [tauto |].
  split; [tauto |]. intros [H | H]; [now left | right]. split; [assumption |].
  congruence.
Qed.

Lemma dict_fromkeys_NoDup (l : list Z) : NoDup (dict_fromkeys l).
Proof.
  induction l as [| y t IH]; simpl; constructor.
  - rewrite filter_In, negb_true_iff, Z.eqb_neq. tauto.
  - now apply NoDup_filter.
Qed.

Lemma firstn_NoDup {A : Type} (k : nat) (l : list A) :
  NoDup l -> NoDup (firstn k l).
Proof.
  intros H. rewrite <- (firstn_skipn k l) in H.
  now apply NoDup_app_remove_r in H.
Qed.

Lemma slice_to_NoDup {A : Type} (n : Z) (l : list A) :
  NoDup l -> NoDup (slice_to n l).
Proof.
  unfold slice_to. destruct (0 <=? n)%Z; apply firstn_NoDup.
Qed.

Lemma slice_to_length {A : Type} (n : Z) (l : list A) :
  (0 <= n)%Z -> (Z.of_nat (length (slice_to n l)) <= n)%Z.
Proof.
  intros Hn. unfold slice_to. apply Z.leb_le in Hn. rewrite Hn.
  apply Z.leb_le in Hn. pose proof (firstn_le_length (Z.to_nat n) l). lia.
Qed.

Lemma slice_to_prefix {A : Type} (n m : Z) (l : list A) :
  (0 <= n <= m)%Z ->
  slice_to n l = firstn (Z.to_nat n) (slice_to m l).
Proof.
  intros [Hn Hm]. unfold slice_to.
  assert (H0m : (0 <= m)%Z) by lia.
  apply Z.leb_le in Hn, H0m. rewrite Hn, H0m. apply Z.leb_le in Hn, H0m.
  rewrite firstn_firstn. f_equal. lia.
Qed.

Lemma recommend_similar_items_inv {V : Type} (ltb : V -> V -> bool)
    (item_id : Z) (isim : DataFrame V) (n : Z) (recs : list Z) :
  recommend_similar_items ltb item_id isim n = Ok recs ->
  (~ In item_id (index isim) /\ recs = []) \/
  exists row, loc isim item_id = Ok row /\
              recs = slice_to n (map fst (tl (sort_values_desc ltb row))).
Proof.
  unfold recommend_similar_items, ranked_after_first.
  destruct (contains item_id (index isim)) eqn:Hc; simpl.
  - destruct (loc isim item_id) as [row |] eqn:Hrow; simpl; [| discriminate].
    intros [= <-]. right. now exists row.
  - intros [= <-]. left. split; [now apply contains_not_In | reflexivity].
Qed.

(** [recommend_for_user] never lists an item twice. *)
Theorem recommend_for_user_NoDup {V : Type} (ltb : V -> V -> bool)
    (user_id : Z) (pivot : DataFrame (option Q)) (usim : DataFrame V)
    (n : Z) (thr : Q) (recs : list Z) :
  recommend_for_user ltb user_id pivot usim n thr = Ok recs -> NoDup recs.
Proof.
  intros H. destruct (recommend_for_user_inv _ _ _ _ _ _ H) as [-> | Hinv];
    [constructor |].
  destruct Hinv as [s [rs [target [_ [_ [_ ->]]]]]].
  apply slice_to_NoDup, NoDup_filter, dict_fromkeys_NoDup.
Qed.

(** Two neighbours recommend the same item: it is listed once. *)
Lemma recommend_for_user_NoDup_witness :
  recommend_for_user Qltb 3 (build_pivot_table shared_item_ratings)
    shared_item_similarity 5 3 = Ok [10%Z; 20%Z] /\
  NoDup [10%Z; 20%Z].
Proof.
  split; [reflexivity |].
  apply (recommend_for_user_NoDup Qltb 3
           (build_pivot_table shared_item_ratings) shared_item_similarity 5 3).
  reflexivity.
Defined.

(** For a non-negative request neither ranker returns more than
    [n_recommendations] items. *)
Theorem rankers_length_bound {V : Type} (ltb : V -> V -> bool)
    (pivot : DataFrame (option Q)) (sim_df : DataFrame V)
    (id n : Z) (thr : Q) :
  (0 <= n)%Z ->
  (forall recs, recommend_for_user ltb id pivot sim_df n thr = Ok recs ->
                (Z.of_nat (length recs) <= n)%Z) /\
  (forall recs, recommend_similar_items ltb id sim_df n = Ok recs ->
                (Z.of_nat (length recs) <= n)%Z).
Proof.
  intros Hn. split; intros recs H.
  - destruct (recommend_for_user_inv _ _ _ _ _ _ H) as [-> | Hinv];
      [simpl; lia |].
    destruct Hinv as [s [rs [target [_ [_ [_ ->]]]]]].
    now apply slice_to_length.
  - destruct (recommend_similar_items_inv _ _ _ _ H) as [[_ ->] | [row [_ ->]]];
      [simpl; lia | now apply slice_to_length].
Qed.

Lemma rankers_length_bound_witness :
  (0 <= 1)%Z /\
  recommend_for_user Qltb 3 (build_pivot_table shared_item_ratings)
    shared_item_similarity 1 3 = Ok [10%Z] /\
  recommend_similar_items Qltb 3 shared_item_similarity 1 = Ok [1%Z] /\
  (Z.of_nat (length [10%Z]) <= 1)%Z /\ (Z.of_nat (length [1%Z]) <= 1)%Z.
Proof.
  assert (H0 : (0 <= 1)%Z) by lia.
  destruct (rankers_length_bound Qltb (build_pivot_table shared_item_ratings)
              shared_item_similarity 3 3 H0) as [Hu Hi].
  split; [exact H0 |]. split; [reflexivity |]. split; [reflexivity |].
  split; [apply Hu | apply Hi]; reflexivity.
Defined.

(** Every item returned by [recommend_for_user] is a column of the pivot
    that some user of the similarity frame rated strictly above the
    threshold. *)
Theorem recommend_for_user_sound {V : Type} (ltb : V -> V -> bool)
    (user_id : Z) (pivot : DataFrame (option Q)) (usim : DataFrame V)
    (n : Z) (thr : Q) (recs : list Z) :
  recommend_for_user ltb user_id pivot usim n thr = Ok recs ->
  forall i, In i recs ->
    In i (columns pivot) /\
    exists u row r, In u (columns usim) /\ loc pivot u = Ok row /\
                    In (i, Some r) row /\ (thr < r)%Q.
Proof.
  intros H i Hi.
  destruct (recommend_for_user_inv _ _ _ _ _ _ H) as [-> | Hinv];
    [contradiction |].
  destruct Hinv as [s [rs [target [Hs [Hrs [_ ->]]]]]].
  apply slice_to_incl in Hi. apply filter_In in Hi. destruct Hi as [Hi _].
  rewrite dict_fromkeys_In in Hi.
  rewrite (collect_In _ _ _ _ Hrs) in Hi.
  destruct Hi as [[] | [u [row [Hu [Hloc Hhigh]]]]].
  apply high_rated_items_In in Hhigh. destruct Hhigh as [r [Hin Hlt]].
  split.
  - apply (loc_labels _ _ Hloc). apply in_map_iff. now exists (i, Some r).
  - exists u, row, r. repeat split; try assumption.
    exact (ranked_after_first_labels _ _ _ Hs u Hu).
Qed.

Lemma recommend_for_user_sound_witness :
  recommend_for_user Qltb 3 (build_pivot_table shared_item_ratings)
    shared_item_similarity 5 3 = Ok [10%Z; 20%Z] /\
  In 20%Z [10%Z; 20%Z] /\
  In 20%Z (columns (build_pivot_table shared_item_ratings)) /\
  exists u row r, In u (columns shared_item_similarity) /\
    loc (build_pivot_table shared_item_ratings) u = Ok row /\
    In (20%Z, Some r) row /\ (3 < r)%Q.
Proof.
  assert (Hin : In 20%Z [10%Z; 20%Z]) by (right; now left).
  split; [reflexivity |]. split; [exact Hin |].
  apply (recommend_for_user_sound Qltb 3
           (build_pivot_table shared_item_ratings) shared_item_similarity 5 3
           (recs := [10%Z; 20%Z])); [reflexivity | exact Hin].
Defined.

(** Asking for more only extends the list: for [0 <= n <= m] the answer to
    [n] is the first [n] items of the answer to [m], for both rankers. *)
Theorem rankers_prefix {V : Type} (ltb : V -> V -> bool)
    (pivot : DataFrame (option Q)) (sim_df : DataFrame V)
    (id n m : Z) (thr : Q) :
  (0 <= n <= m)%Z ->
  (forall a b,
     recommend_for_user ltb id pivot sim_df n thr = Ok a ->
     recommend_for_user ltb id pivot sim_df m thr = Ok b ->
     a = firstn (Z.to_nat n) b) /\
  (forall a b,
     recommend_similar_items ltb id sim_df n = Ok a ->
     recommend_similar_items ltb id sim_df m = Ok b ->
     a = firstn (Z.to_nat n) b).
Proof.
  intros Hnm. split; intros a b Ha Hb.
  - unfold recommend_for_user in Ha, Hb.
    destruct (contains id (index pivot)); simpl in Ha, Hb.
    + destruct (ranked_after_first ltb id sim_df) as [s |]; simpl in Ha, Hb;
        [| discriminate].
      destruct (collect pivot (map fst s) thr []) as [rs |]; simpl in Ha, Hb;
        [| discriminate].
      destruct (loc pivot id) as [target |]; simpl in Ha, Hb; [| discriminate].
      injection Ha as <-. injection Hb as <-. now apply slice_to_prefix.
    + injection Ha as <-. injection Hb as <-. now rewrite firstn_nil.
  - destruct (recommend_similar_items_inv _ _ _ _ Ha) as [[Hna ->] | [row [Hr ->]]].
    + destruct (recommend_similar_items_inv _ _ _ _ Hb) as [[_ ->] | [row [Hr _]]];
        [now rewrite firstn_nil |].
      exfalso. apply Hna. apply loc_Ok_iff. now exists row.
    + destruct (recommend_similar_items_inv _ _ _ _ Hb) as [[Hnb _] | [row' [Hr' ->]]].
      * exfalso. apply Hnb. apply loc_Ok_iff. now exists row.
      * assert (row' = row) by congruence. subst row'.
        now apply slice_to_prefix.
Qed.

Lemma rankers_prefix_witness :
  (0 <= 1 <= 5)%Z /\
  [10%Z] = firstn (Z.to_nat 1) [10%Z; 20%Z] /\
  [1%Z] = firstn (Z.to_nat 1) [1%Z; 2%Z].
Proof.
  assert (H : (0 <= 1 <= 5)%Z) by lia.
  destruct (rankers_prefix Qltb (build_pivot_table shared_item_ratings)
              shared_item_similarity 3 3 H) as [Hu Hi].
  split; [exact H |]. split.
  - apply Hu; reflexivity.
  - apply Hi; reflexivity.
Defined.

(** ** The item-based ranker on a well-shaped frame *)

Lemma lookup_row_In {V : Type} (label : Z) (rs : list (Z * list V))
    (r : list V) :
  lookup_row label rs = Some r -> In (label, r) rs.
Proof.
  induction rs as [| [l w] rest IH]; simpl; [discriminate |].
  destruct (Z.eqb_spec label l) as [-> | Hne].
  - intros [= ->]. now left.
  - intros H. right. now apply IH.
Qed.

Lemma map_fst_combine {A B : Type} (l : list A) (r : list B) :
  length r = length l -> map fst (combine l r) = l.
Proof.
  revert r. induction l as [| x l IH]; intros [| y r]; simpl;
    try discriminate; [reflexivity |].
  intros [= H]. now rewrite IH.
Qed.

(** On a frame whose rows are as long as its column index, the row of a
    label carries exactly the column labels. *)
Lemma loc_full_labels {V : Type} (df : DataFrame V) (label : Z) (s : Series V) :
  Forall (fun r => length (snd r) = length (columns df)) (rows df) ->
  loc df label = Ok s -> map fst s = columns df.
Proof.
  intros Hshape. unfold loc.
  destruct (lookup_row label (rows df)) as [r |] eqn:Hr; [| discriminate].
  intros [= <-]. apply map_fst_combine.
  apply lookup_row_In in Hr. rewrite Forall_forall in Hshape.
  exact (Hshape _ Hr).
Qed.

Lemma sort_values_desc_length {V : Type} (ltb : V -> V -> bool) (s : Series V) :
  length (sort_values_desc ltb s) = length s.
Proof.
  symmetry. apply Permutation_length, sort_values_desc_perm.
Qed.

Lemma slice_to_exact_length {A : Type} (n : Z) (l : list A) :
  length (slice_to n l) =
  if (0 <=? n)%Z then Nat.min (Z.to_nat n) (length l)
  else (length l - Z.to_nat (- n))%nat.
Proof.
  unfold slice_to. destruct (0 <=? n)%Z; rewrite length_firstn; lia.
Qed.

(** On a frame whose rows are as long as its column index, a known item gets
    every column label but the one that sorts first, cut to the request: the
    answer has [min n (c - 1)] items for [n >= 0] and [c - 1 - |n|] items
    for [n < 0] (a negative request cuts from the end), [c] being the number
    of columns. *)
Theorem recommend_similar_items_length {V : Type} (ltb : V -> V -> bool)
    (item_id : Z) (isim : DataFrame V) (n : Z) (recs : list Z) :
  Forall (fun r => length (snd r) = length (columns isim)) (rows isim) ->
  In item_id (index isim) ->
  recommend_similar_items ltb item_id isim n = Ok recs ->
  incl recs (columns isim) /\
  length recs =
    if (0 <=? n)%Z then Nat.min (Z.to_nat n) (length (columns isim) - 1)
    else (length (columns isim) - 1 - Z.to_nat (- n))%nat.
Proof.
  intros Hshape Hin H.
  destruct (recommend_similar_items_inv _ _ _ _ H) as [[Hn _] | [row [Hrow ->]]];
    [contradiction |].
  pose proof (loc_full_labels _ _ Hshape Hrow) as Hlabels.
  split.
  - intros x Hx. apply slice_to_incl in Hx. rewrite <- Hlabels.
    apply in_map_iff in Hx. destruct Hx as [c [<- Hc]]. apply in_map.
    apply (Permutation_in _ (Permutation_sym (sort_values_desc_perm ltb row))).
    destruct (sort_values_desc ltb row); simpl in Hc; [contradiction | now right].
  - rewrite slice_to_exact_length, length_map.
    assert (Hlen : length (tl (sort_values_desc ltb row)) =
                   (length (columns isim) - 1)%nat).
    { rewrite <- Hlabels, length_map, <- (sort_values_desc_length ltb row).
      destruct (sort_values_desc ltb row); simpl; lia. }
    now rewrite Hlen.
Qed.

Lemma recommend_similar_items_length_witness :
  Forall (fun r => length (snd r) = length (columns shared_item_similarity))
    (rows shared_item_similarity) /\
  In 3%Z (index shared_item_similarity) /\
  recommend_similar_items Qltb 3 shared_item_similarity (-1) = Ok [1%Z] /\
  incl [1%Z] (columns shared_item_similarity) /\
  length [1%Z] = 1%nat.
Proof.
  assert (Hs : Forall (fun r => length (snd r) =
                                length (columns shared_item_similarity))
                 (rows shared_item_similarity))
    by (repeat constructor).
  assert (Hin : In 3%Z (index shared_item_similarity))
    by (right; right; now left).
  split; [exact Hs |]. split; [exact Hin |]. split; [reflexivity |].
  apply (recommend_similar_items_length Qltb 3 shared_item_similarity (-1)
           Hs Hin).
  reflexivity.
Defined.

(** When enough items are requested, the answer holds every column label
    except one, each exactly as often as the column index does. *)
Theorem recommend_similar_items_all_but_one {V : Type} (ltb : V -> V -> bool)
    (item_id : Z) (isim : DataFrame V) (n : Z) (recs : list Z) :
  Forall (fun r => length (snd r) = length (columns isim)) (rows isim) ->
  In item_id (index isim) ->
  columns isim <> [] ->
  (Z.of_nat (length (columns isim)) - 1 <= n)%Z ->
  recommend_similar_items ltb item_id isim n = Ok recs ->
  exists dropped, Permutation (dropped :: recs) (columns isim).
Proof.
  intros Hshape Hin Hne Hn H.
  destruct (recommend_similar_items_inv _ _ _ _ H) as [[Hni _] | [row [Hrow ->]]];
    [contradiction |].
  pose proof (loc_full_labels _ _ Hshape Hrow) as Hlabels.
  pose proof (sort_values_desc_perm ltb row) as Hperm.
  pose proof (sort_values_desc_length ltb row) as Hlen.
  destruct (sort_values_desc ltb row) as [| d t] eqn:E.
  - exfalso. apply Hne. rewrite <- Hlabels.
    destruct row; [reflexivity | simpl in Hlen; discriminate].
  - exists (fst d). simpl.
    assert (Hall : slice_to n (map fst t) = map fst t).
    { unfold slice_to.
      assert (Hlt : length (map fst t) = (length (columns isim) - 1)%nat).
      { rewrite length_map, <- Hlabels, length_map, <- Hlen. simpl. lia. }
      assert (H0 : (0 <= n)%Z).
      { assert (length (columns isim) <> 0%nat)
          by (destruct (columns isim); [contradiction | discriminate]).
        lia. }
      apply Z.leb_le in H0. rewrite H0. apply firstn_all2. lia. }
    rewrite Hall, <- Hlabels.
    change (fst d :: map fst t) with (map fst (d :: t)).
    apply Permutation_map, Permutation_sym, Hperm.
Qed.

Lemma recommend_similar_items_all_but_one_witness :
  recommend_similar_items Qltb 3 shared_item_similarity 5 = Ok [1%Z; 2%Z] /\
  exists dropped,
    Permutation (dropped :: [1%Z; 2%Z]) (columns shared_item_similarity).
Proof.
  split; [reflexivity |].
  apply (@recommend_similar_items_all_but_one Q Qltb 3 shared_item_similarity
           5 [1%Z; 2%Z]).
  - repeat constructor.
  - right; right; now left.
  - discriminate.
  - simpl. lia.
  - reflexivity.
Defined.

Lemma StronglySorted_tl {A : Type} (R : A -> A -> Prop) (l : list A) :
  StronglySorted R l -> StronglySorted R (tl l).
Proof.
  intros H. destruct H; simpl; [constructor | assumption].
Qed.

Lemma StronglySorted_firstn {A : Type} (R : A -> A -> Prop) (k : nat)
    (l : list A) :
  StronglySorted R l -> StronglySorted R (firstn k l).
Proof.
  intros H. revert k. induction H as [| x l Hl IH Hx]; intros [| k]; simpl;
    try constructor.
  - apply IH.
  - apply Forall_forall. intros y Hy. apply firstn_incl in Hy.
    rewrite Forall_forall in Hx. now apply Hx.
Qed.

Lemma StronglySorted_map_In {A B : Type} (R' : A -> A -> Prop)
    (R : B -> B -> Prop) (f : A -> B) (l : list A) :
  (forall p q, In p l -> In q l -> R' p q -> R (f p) (f q)) ->
  StronglySorted R' l -> StronglySorted R (map f l).
Proof.
  intros Himp H. induction H as [| x l Hl IH Hx]; simpl; constructor.
  - apply IH. intros p q Hp Hq. apply Himp; now right.
  - apply Forall_forall. intros y Hy. apply in_map_iff in Hy.
    destruct Hy as [q [<- Hq]]. rewrite Forall_forall in Hx.
    apply Himp; [now left | now right | now apply Hx].
Qed.

Lemma combine_labels_NoDup {A B : Type} (l : list A) (r : list B) :
  NoDup l -> NoDup (map fst (combine l r)).
Proof.
  intros H. revert r. induction H as [| x l Hx Hl IH]; intros [| y r]; simpl;
    try constructor.
  - intros Hin. apply Hx. apply in_map_iff in Hin.
    destruct Hin as [[a b] [<- Hab]]. now apply in_combine_l in Hab.
  - apply IH.
Qed.

Lemma lookup_NoDup {V : Type} (label : Z) (v : V) (s : Series V) :
  NoDup (map fst s) -> In (label, v) s -> lookup label s = Some v.
Proof.
  induction s as [| [l w] rest IH]; simpl; [contradiction |].
  intros Hnd Hin. inversion Hnd as [| ? ? Hl Hrest]; subst.
  destruct Hin as [[= -> ->] | Hin].
  - now rewrite Z.eqb_refl.
  - destruct (Z.eqb_spec label l) as [-> | Hne]; [| now apply IH].
    exfalso. apply Hl. apply in_map_iff. now exists (l, v).
Qed.

(** With distinct column labels, [recommend_similar_items] lists its items
    in descending order of their similarity to [item_id]: an item never
    precedes one that is more similar. *)
Theorem recommend_similar_items_descending (item_id : Z) (isim : DataFrame Q)
    (n : Z) (recs : list Z) :
  NoDup (columns isim) ->
  recommend_similar_items Qltb item_id isim n = Ok recs ->
  StronglySorted
    (fun i j => exists vi vj, cell isim item_id i = Some vi /\
                              cell isim item_id j = Some vj /\ (vj <= vi)%Q)
    recs.
Proof.
  intros Hnd H.
  destruct (recommend_similar_items_inv _ _ _ _ H) as [[_ ->] | [row [Hrow ->]]];
    [constructor |].
  assert (Hlab : NoDup (map fst row)).
  { unfold loc in Hrow. destruct (lookup_row item_id (rows isim)); [| discriminate].
    injection Hrow as <-. now apply combine_labels_NoDup. }
  assert (Hsl : exists k, slice_to n (map fst (tl (sort_values_desc Qltb row))) =
                          map fst (firstn k (tl (sort_values_desc Qltb row)))).
  { unfold slice_to. destruct (0 <=? n)%Z; eexists; apply firstn_map. }
  destruct Hsl as [k ->].
  apply StronglySorted_map_In
    with (R' := fun p q : Z * Q => (snd q <= snd p)%Q).
  - assert (Hsub : forall p, In p (firstn k (tl (sort_values_desc Qltb row))) ->
                             In p row).
    { intros p Hp. apply firstn_incl in Hp.
      apply (Permutation_in _ (Permutation_sym (sort_values_desc_perm Qltb row))).
      destruct (sort_values_desc Qltb row); simpl in Hp;
        [contradiction | now right]. }
    intros [i vi] [j vj] Hp Hq Hle. simpl in *. exists vi, vj.
    unfold cell. rewrite Hrow.
    repeat split; try assumption; apply lookup_NoDup; auto.
  - apply StronglySorted_firstn, StronglySorted_tl, sort_values_desc_Q.
Qed.

Lemma recommend_similar_items_descending_witness :
  NoDup (columns shared_item_similarity) /\
  recommend_similar_items Qltb 3 shared_item_similarity 5 = Ok [1%Z; 2%Z] /\
  StronglySorted
    (fun i j => exists vi vj,
       cell shared_item_similarity 3 i = Some vi /\
       cell shared_item_similarity 3 j = Some vj /\ (vj <= vi)%Q)
    [1%Z; 2%Z].
Proof.
  assert (Hnd : NoDup (columns shared_item_similarity)).
  { repeat constructor; simpl; intuition discriminate. }
  split; [exact Hnd |]. split; [reflexivity |].
  apply (@recommend_similar_items_descending 3 shared_item_similarity 5
           [1%Z; 2%Z] Hnd).
  reflexivity.
Defined.

(** ** When the first sorted entry is the identifier's own *)




(** * Further properties of the similarity engine *)

Module CosineBounds.

Import Cosine CosineFacts.
Local Open Scope R_scope.






End CosineBounds.










Module CosineScale.

Import Cosine CosineFacts.
Local Open Scope R_scope.





End CosineScale.






(** * The stages composed *)

Lemma recommend_similar_items_Ok {V : Type} (ltb : V -> V -> bool)
    (item_id : Z) (isim : DataFrame V) (n : Z) :
  exists recs, recommend_similar_items ltb item_id isim n = Ok recs.
Proof.
  unfold recommend_similar_items.
  destruct (contains item_id (index isim)) eqn:Hc; simpl; [| now eexists].
  apply contains_In in Hc.
  destruct (ranked_after_first_Ok ltb item_id isim Hc) as [s ->].
  simpl. now eexists.
Qed.

Lemma build_pivot_table_nonempty (ratings_df : list RatingRecord) :
  ratings_df <> [] ->
  rows (build_pivot_table ratings_df) <> [] /\
  columns (build_pivot_table ratings_df) <> [].
Proof.
  intros Hne. destruct ratings_df as [| r t]; [contradiction |].
  assert (Hsu : forall l x, In x l -> sorted_unique l <> []).
  { intros l x Hx E. apply sorted_unique_In in Hx. rewrite E in Hx.
    contradiction. }
  split.
  - unfold build_pivot_table. cbn [rows]. intros E.
    apply map_eq_nil in E.
    apply (Hsu (map User_ID (r :: t)) (User_ID r)); [now left | exact E].
  - unfold build_pivot_table. cbn [columns].
    apply (Hsu (map Item_ID (r :: t)) (Item_ID r)). now left.
Qed.

(** On every non-empty ratings table the whole pipeline runs without an
    exception: the pivot has a user and an item similarity frame, and on
    these both rankers return a list for every identifier, request size and
    threshold. *)
Theorem pipeline_runs_on_nonempty_table (ratings_df : list RatingRecord)
    (ltb : R -> R -> bool) :
  ratings_df <> [] ->
  exists usim isim,
    compute_user_similarity (build_pivot_table ratings_df) = Ok usim /\
    compute_item_similarity (build_pivot_table ratings_df) = Ok isim /\
    (forall user_id n thr, exists recs,
       recommend_for_user ltb user_id (build_pivot_table ratings_df) usim n thr
       = Ok recs) /\
    (forall item_id n, exists recs,
       recommend_similar_items ltb item_id isim n = Ok recs).
Proof.
  intros Hne. destruct (build_pivot_table_nonempty Hne) as [Hr Hc].
  destruct (@compute_user_similarity_Ok _ Hr Hc) as [usim Hu].
  destruct (@compute_item_similarity_Ok _ Hr Hc) as [isim Hi].
  exists usim, isim. split; [exact Hu |]. split; [exact Hi |]. split.
  - intros user_id n thr. apply recommend_for_user_Ok.
    apply compute_user_similarity_inv in Hu. destruct Hu as [sim [Hu ->]].
    rewrite <- index_fillna0.
    exact (proj1 (cosine_square_symmetric _ Hu)).
  - intros item_id n. apply recommend_similar_items_Ok.
Qed.

Lemma pipeline_runs_on_nonempty_table_witness :
  exists usim isim,
    compute_user_similarity (build_pivot_table scenario_ratings) = Ok usim /\
    compute_item_similarity (build_pivot_table scenario_ratings) = Ok isim /\
    (forall user_id n thr, exists recs,
       recommend_for_user Rltb user_id (build_pivot_table scenario_ratings)
         usim n thr = Ok recs) /\
    (forall item_id n, exists recs,
       recommend_similar_items Rltb item_id isim n = Ok recs).
Proof.
  apply (@pipeline_runs_on_nonempty_table scenario_ratings Rltb).
  discriminate.
Defined.

(** * Further properties of the pivot *)

Lemma build_pivot_table_cell (ratings_df : list RatingRecord) (u i : Z) :
  In u (index (build_pivot_table ratings_df)) ->
  In i (columns (build_pivot_table ratings_df)) ->
  cell (build_pivot_table ratings_df) u i =
  Some (mean (group_ratings u i ratings_df)).
Proof.
  rewrite build_pivot_table_index. intros Hu Hi.
  unfold cell, loc, build_pivot_table. simpl.
  rewrite (lookup_row_map
             (fun u => map (fun i => mean (group_ratings u i ratings_df))
                         (sorted_unique (map Item_ID ratings_df))) u _ Hu).
  apply (lookup_combine_map
           (fun i => mean (group_ratings u i ratings_df)) i _ Hi).
Qed.



(** Every user of the pivot has a rating in its row and every item has a
    rating in its column: the pivot has no all-absent row or column. *)
Theorem pivot_rows_and_columns_rated (ratings_df : list RatingRecord) :
  (forall u, In u (index (build_pivot_table ratings_df)) ->
     exists i q, cell (build_pivot_table ratings_df) u i = Some (Some q)) /\
  (forall i, In i (columns (build_pivot_table ratings_df)) ->
     exists u q, cell (build_pivot_table ratings_df) u i = Some (Some q)).
Proof.
  assert (Hrec : forall r, In r ratings_df ->
            exists q, cell (build_pivot_table ratings_df) (User_ID r) (Item_ID r)
                      = Some (Some q)).
  { intros r Hr. rewrite build_pivot_table_cell.
    - destruct (mean (group_ratings (User_ID r) (Item_ID r) ratings_df))
        as [q |] eqn:E; [now exists q |].
      exfalso. unfold mean in E.
      destruct (group_ratings (User_ID r) (Item_ID r) ratings_df) eqn:G;
        [| discriminate].
      apply group_ratings_nil in G. apply G. now exists r.
    - rewrite build_pivot_table_index. apply sorted_unique_In.
      now apply in_map.
    - unfold build_pivot_table. simpl. apply sorted_unique_In.
      now apply in_map. }
  split.
  - intros u Hu. rewrite build_pivot_table_index in Hu.
    apply sorted_unique_In, in_map_iff in Hu. destruct Hu as [r [<- Hr]].
    destruct (Hrec r Hr) as [q Hq]. now exists (Item_ID r), q.
  - intros i Hi. unfold build_pivot_table in Hi. simpl in Hi.
    apply sorted_unique_In, in_map_iff in Hi. destruct Hi as [r [<- Hr]].
    destruct (Hrec r Hr) as [q Hq]. now exists (User_ID r), q.
Qed.

Lemma pivot_rows_and_columns_rated_witness :
  In 30%Z (columns (build_pivot_table scenario_ratings)) /\
  exists u q, cell (build_pivot_table scenario_ratings) u 30 = Some (Some q).
Proof.
  assert (H : In 30%Z (columns (build_pivot_table scenario_ratings)))
    by (right; right; now left).
  split; [exact H |].
  exact (proj2 (pivot_rows_and_columns_rated scenario_ratings) 30%Z H).
Defined.











(** * The presentation helpers *)

Lemma get_In (key : String.string)
    (d : list (String.string * list String.string))
    (v : list String.string) :
  App.get key d = Some v -> In (key, v) d.
Proof.
  induction d as [| [k w] rest IH]; simpl; [discriminate |].
  destruct (String.eqb_spec key k) as [-> | Hne].
  - intros [= ->]. now left.
  - intros H. right. now apply IH.
Qed.

Lemma mod_index_in_range (i : Z) (n : nat) :
  n <> 0%nat -> (Z.to_nat (i mod Z.of_nat n) < n)%nat.
Proof.
  intros Hn. assert (H : (0 <= i mod Z.of_nat n < Z.of_nat n)%Z)
    by (apply Z.mod_pos_bound; lia).
  lia.
Qed.

(** [_item_image_url] never fails on its subscript, whatever the item id
    (negative ids included) and the category: it returns the fallback image
    or one of the images listed for the category. *)
Theorem item_image_url_total (item_id : option Z)
    (category : option String.string) :
  exists url,
    App._item_image_url item_id category = Some url /\
    (url = App.fallback \/
     exists c urls, category = Some c /\
                    In (c, urls) App.CATEGORY_IMAGE_URLS /\ In url urls).
Proof.
  unfold App._item_image_url.
  destruct category as [c |]; [| exists App.fallback; tauto].
  destruct (String.eqb c String.EmptyString); [exists App.fallback; tauto |].
  destruct (App.get c App.CATEGORY_IMAGE_URLS) as [urls |] eqn:G;
    [| exists App.fallback; tauto].
  apply get_In in G.
  destruct urls as [| u0 rest] eqn:E; [exists App.fallback; tauto |].
  rewrite <- E in *.
  assert (Hlen : length urls <> 0%nat) by (rewrite E; discriminate).
  assert (Hsome : forall k, (k < length urls)%nat ->
            exists url, nth_error urls k = Some url /\ In url urls).
  { intros k Hk. destruct (nth_error urls k) as [url |] eqn:N.
    - exists url. split; [reflexivity |]. now apply nth_error_In in N.
    - apply nth_error_None in N. lia. }
  destruct item_id as [i |].
  - destruct (Hsome _ (mod_index_in_range i Hlen)) as [url [Hn Hin]].
    exists url. split; [exact Hn |]. right. now exists c, urls.
  - destruct (Hsome 0%nat) as [url [Hn Hin]]; [lia |].
    exists url. split; [exact Hn |]. right. now exists c, urls.
Qed.

(** For a given category the image depends on the parity of the item id
    only: item ids of equal parity get the same image. *)
Theorem item_image_url_by_parity (a b : Z) (category : option String.string) :
  Z.even a = Z.even b ->
  App._item_image_url (Some a) category = App._item_image_url (Some b) category.
Proof.
  intros Hpar. unfold App._item_image_url.
  destruct category as [c |]; [| reflexivity].
  destruct (String.eqb c String.EmptyString); [reflexivity |].
  destruct (App.get c App.CATEGORY_IMAGE_URLS) as [urls |] eqn:G;
    [| reflexivity].
  apply get_In in G.
  assert (Htwo : Forall (fun kv => length (snd kv) = 2%nat)
                   App.CATEGORY_IMAGE_URLS) by (repeat constructor).
  rewrite Forall_forall in Htwo. specialize (Htwo _ G). simpl in Htwo.
  destruct urls as [| u0 rest]; [reflexivity |].
  rewrite Htwo. change (Z.of_nat 2) with 2%Z.
  now rewrite !Zmod_even, Hpar.
Qed.

Lemma item_image_url_by_parity_witness :
  Z.even 7 = Z.even (-3) /\
  App._item_image_url (Some 7%Z) AppSamples.hat =
  App._item_image_url (Some (-3)%Z) AppSamples.hat.
Proof.
  split; [reflexivity |].
  apply item_image_url_by_parity. reflexivity.
Defined.

Lemma item_image_url_total_aux (i : Z) (category : option String.string) :
  exists url, App._item_image_url (Some i) category = Some url.
Proof.
  unfold App._item_image_url.
  destruct category as [c |]; [| now eexists].
  destruct (String.eqb c String.EmptyString); [now eexists |].
  destruct (App.get c App.CATEGORY_IMAGE_URLS) as [urls |]; [| now eexists].
  destruct urls as [| u0 rest] eqn:E; [now eexists |].
  rewrite <- E.
  assert (Hlen : length urls <> 0%nat) by (rewrite E; discriminate).
  pose proof (mod_index_in_range i Hlen) as Hk.
  destruct (nth_error urls (Z.to_nat (i mod Z.of_nat (length urls)))) as [url |] eqn:N;
    [now eexists |].
  apply nth_error_None in N. lia.
Qed.

(** ** The gallery layout *)

Lemma drop_duplicates_In (x : App.Item) (items : list App.Item) :
  In x (App.drop_duplicates items) -> In x items.
Proof.
  revert x. induction items as [| y t IH]; simpl; intros x; [tauto |].
  intros [-> | H]; [now left |].
  apply filter_In in H. right. apply IH. tauto.
Qed.

Lemma drop_duplicates_ids (i : Z) (items : list App.Item) :
  In i (map App.Item_ID (App.drop_duplicates items)) <->
  In i (map App.Item_ID items).
Proof.
  induction items as [| y t IH]; simpl; [tauto |].
  rewrite <- IH. rewrite !in_map_iff. split.
  - intros [-> | [x [Hx Hin]]]; [now left |].
    apply filter_In in Hin. right. exists x. tauto.
  - intros [-> | [x [Hx Hin]]]; [now left |].
    destruct (Z.eq_dec (App.Item_ID y) i) as [E | Hne]; [now left |].
    right. exists x. split; [assumption |].
    apply filter_In. split; [assumption |].
    apply negb_true_iff, Z.eqb_neq. congruence.
Qed.

Lemma drop_duplicates_NoDup (items : list App.Item) :
  NoDup (map App.Item_ID (App.drop_duplicates items)).
Proof.
  induction items as [| y t IH]; simpl; constructor.
  - rewrite in_map_iff. intros [x [Hx Hin]].
    apply filter_In in Hin. destruct Hin as [_ Hin].
    apply negb_true_iff, Z.eqb_neq in Hin. congruence.
  - clear - IH. induction (App.drop_duplicates t) as [| z l IHl]; simpl;
      [constructor |].
    inversion IH as [| ? ? Hz Hl]; subst.
    destruct (negb (App.Item_ID z =? App.Item_ID y)%Z); simpl;
      [| now apply IHl].
    constructor; [| now apply IHl].
    rewrite in_map_iff. intros [x [Hx Hin]]. apply filter_In in Hin.
    apply Hz. apply in_map_iff. exists x. tauto.
Qed.

Lemma skipn_nth_error {A : Type} (l : list A) (i : nat) (x : A) :
  nth_error l i = Some x -> skipn i l = x :: skipn (S i) l.
Proof.
  revert i. induction l as [| y t IH]; intros [| i]; simpl;
    try discriminate.
  - now intros [= ->].
  - intros H. now rewrite (IH _ H).
Qed.

Lemma firstn_add_split {A : Type} (a b : nat) (l : list A) :
  firstn (a + b) l = firstn a l ++ firstn b (skipn a l).
Proof.
  revert l. induction a as [| a IH]; intros l; simpl; [reflexivity |].
  destruct l as [| x t]; simpl; [now rewrite firstn_nil |].
  now rewrite IH.
Qed.

Lemma skipn_length_firstn {A : Type} (a : nat) (l : list A) :
  skipn (length (firstn a l)) l = skipn a l.
Proof.
  rewrite length_firstn.
  destruct (Nat.le_ge_cases a (length l)) as [H | H].
  - now rewrite Nat.min_l.
  - rewrite Nat.min_r by assumption.
    now rewrite skipn_all, skipn_all2.
Qed.

(** One row of the gallery: the next [cols] items, as far as there are. *)
Lemma fill_columns_spec (cols : nat) (iterator : list App.Item) (idx : nat) :
  exists cards,
    App.fill_columns cols iterator idx = inr (cards, (idx + length cards)%nat) /\
    map App.card_item cards = firstn cols (skipn idx iterator).
Proof.
  revert idx. induction cols as [| k IH]; intros idx; simpl.
  - exists []. split; [now rewrite Nat.add_0_r | reflexivity].
  - destruct (nth_error iterator idx) as [item |] eqn:N.
    + destruct (item_image_url_total_aux (App.Item_ID item) (App.Category item))
        as [url ->].
      destruct (IH (S idx)) as [cards [Hc Hm]]. rewrite Hc.
      exists (App.mkCard item url :: cards). split.
      * simpl. do 2 f_equal. lia.
      * simpl. rewrite (skipn_nth_error _ _ N). simpl. now rewrite Hm.
    + exists []. split; [now rewrite Nat.add_0_r |].
      apply nth_error_None in N. now rewrite skipn_all2.
Qed.

Lemma render_rows_spec (rows : nat) (cols_per_row : Z)
    (iterator : list App.Item) (idx : nat) :
  (1 <= cols_per_row)%Z ->
  exists widgets,
    App.render_rows rows cols_per_row iterator idx = inr widgets /\
    map App.card_item (App.cards_of widgets) =
      firstn (rows * Z.to_nat cols_per_row) (skipn idx iterator) /\
    length widgets = rows /\
    Forall (fun w => exists cards,
              w = App.Columns cards /\
              (Z.of_nat (length cards) <= cols_per_row)%Z) widgets.
Proof.
  intros Hc. revert idx. induction rows as [| r IH]; intros idx; simpl.
  - exists []. repeat split. constructor.
  - assert (Hle : (cols_per_row <=? 0)%Z = false) by (apply Z.leb_gt; lia).
    rewrite Hle.
    destruct (fill_columns_spec (Z.to_nat cols_per_row) iterator idx)
      as [cards [Hf Hm]].
    rewrite Hf.
    destruct (IH (idx + length cards)%nat) as [rest [Hr [Hrm [Hlen Hall]]]].
    rewrite Hr. exists (App.Columns cards :: rest).
    split; [reflexivity |]. split; [| split].
    + simpl. rewrite map_app, Hm, Hrm, firstn_add_split. f_equal.
      rewrite <- (length_map App.card_item cards), Hm.
      rewrite Nat.add_comm, <- skipn_skipn.
      now rewrite skipn_length_firstn.
    + simpl. now rewrite Hlen.
    + constructor; [| exact Hall]. exists cards. split; [reflexivity |].
      rewrite <- (length_map App.card_item cards), Hm.
      pose proof (firstn_le_length (Z.to_nat cols_per_row) (skipn idx iterator)).
      lia.
Qed.

Lemma ceil_rows_cover (n : nat) (c : Z) :
  (1 <= c)%Z ->
  (n <= Z.to_nat ((Z.of_nat n + c - 1) / c) * Z.to_nat c)%nat.
Proof.
  intros Hc.
  assert (Hq : (0 <= (Z.of_nat n + c - 1) / c)%Z) by (apply Z.div_pos; lia).
  pose proof (Z.mul_succ_div_gt (Z.of_nat n + c - 1) c) as Hgt.
  assert (Hn : (Z.of_nat n <= c * ((Z.of_nat n + c - 1) / c))%Z) by lia.
  apply Nat2Z.inj_le. rewrite Nat2Z.inj_mul, !Z2Nat.id by lia. lia.
Qed.

Lemma gallery_layout (items_df : list App.Item) (title : String.string)
    (cols_per_row : Z) :
  items_df <> [] -> (1 <= cols_per_row)%Z ->
  exists header rows,
    App.render_item_gallery items_df title cols_per_row =
      inr (App.Markdown header :: rows) /\
    map App.card_item (App.cards_of rows) = App.drop_duplicates items_df /\
    Z.of_nat (length rows) =
      ((Z.of_nat (length (App.drop_duplicates items_df)) + cols_per_row - 1)
         / cols_per_row)%Z /\
    Forall (fun w => exists cards,
              w = App.Columns cards /\
              (Z.of_nat (length cards) <= cols_per_row)%Z) rows.
Proof.
  intros Hne Hc. unfold App.render_item_gallery.
  destruct items_df as [| x t] eqn:E; [contradiction |]. rewrite <- E.
  assert (Hz : (cols_per_row =? 0)%Z = false) by (apply Z.eqb_neq; lia).
  rewrite Hz.
  set (U := App.drop_duplicates items_df).
  set (q := ((Z.of_nat (length U) + cols_per_row - 1) / cols_per_row)%Z).
  destruct (render_rows_spec (Z.to_nat q) U 0 Hc)
    as [rows [Hr [Hm [Hlen Hall]]]].
  rewrite Hr. eexists. exists rows. split; [reflexivity |].
  split; [| split; [| exact Hall]].
  - rewrite Hm. simpl skipn. apply firstn_all2.
    unfold q. now apply ceil_rows_cover.
  - rewrite Hlen. apply Z2Nat.id. unfold q. apply Z.div_pos; lia.
Qed.

(** With at least one column per row, the gallery of a non-empty frame
    draws a title and then one card for every distinct item id, in the order
    of first occurrence in the frame: no item is left out and none is drawn
    twice.  It uses the ceiling of (distinct items / columns) rows, each
    holding at most [cols_per_row] cards. *)
Theorem gallery_draws_each_item_once (items_df : list App.Item)
    (title : String.string) (cols_per_row : Z) :
  items_df <> [] -> (1 <= cols_per_row)%Z ->
  exists header rows,
    App.render_item_gallery items_df title cols_per_row =
      inr (App.Markdown header :: rows) /\
    map App.card_item (App.cards_of rows) = App.drop_duplicates items_df /\
    NoDup (map App.Item_ID (map App.card_item (App.cards_of rows))) /\
    (forall i, In i (map App.Item_ID items_df) <->
               In i (map App.Item_ID (map App.card_item (App.cards_of rows)))) /\
    Z.of_nat (length rows) =
      ((Z.of_nat (length (App.drop_duplicates items_df)) + cols_per_row - 1)
         / cols_per_row)%Z /\
    Forall (fun w => exists cards,
              w = App.Columns cards /\
              (Z.of_nat (length cards) <= cols_per_row)%Z) rows.
Proof.
  intros Hne Hc.
  destruct (gallery_layout title Hne Hc) as [header [rows [Hr [Hm [Hlen Hall]]]]].
  exists header, rows. split; [exact Hr |]. split; [exact Hm |]. rewrite Hm.
  split; [apply drop_duplicates_NoDup |].
  split; [intros i; symmetry; apply drop_duplicates_ids |].
  split; [exact Hlen | exact Hall].
Qed.

Lemma gallery_draws_each_item_once_witness :
  exists header rows,
    App.render_item_gallery AppSamples.sample_items AppSamples.gallery_title 2
      = inr (App.Markdown header :: rows) /\
    map App.Item_ID (map App.card_item (App.cards_of rows)) =
      [10; 20; 30; 40]%Z /\
    length rows = 2%nat.
Proof.
  assert (Hne : AppSamples.sample_items <> []) by discriminate.
  assert (Hc : (1 <= 2)%Z) by lia.
  destruct (@gallery_draws_each_item_once AppSamples.sample_items
              AppSamples.gallery_title 2 Hne Hc)
    as [header [rows [Hr [Hm [_ [_ [Hlen _]]]]]]].
  exists header, rows. split; [exact Hr |]. split.
  - now rewrite Hm.
  - apply Nat2Z.inj. rewrite Hlen. reflexivity.
Defined.

(** The gallery on its edges: an empty frame gives the "no items" notice
    and nothing else, whatever the column count; on a non-empty frame a
    column count of zero fails with a division by zero, and a negative
    one never draws a card (it fails on the column spec or draws the title
    alone). *)
Theorem gallery_edge_cases (items_df : list App.Item)
    (title : String.string) (cols_per_row : Z) :
  (exists msg, App.render_item_gallery [] title cols_per_row =
               inr [App.Info msg]) /\
  (items_df <> [] ->
   App.render_item_gallery items_df title 0 = inl App.ZeroDivisionError) /\
  (items_df <> [] -> (cols_per_row < 0)%Z ->
   App.render_item_gallery items_df title cols_per_row =
     inl App.InvalidColumnSpec \/
   exists header,
     App.render_item_gallery items_df title cols_per_row =
       inr [App.Markdown header]).
Proof.
  split; [eexists; reflexivity |]. split.
  - intros Hne. destruct items_df; [contradiction | reflexivity].
  - intros Hne Hc. unfold App.render_item_gallery.
    destruct items_df as [| x t] eqn:E; [contradiction |]. rewrite <- E.
    assert (Hz : (cols_per_row =? 0)%Z = false) by (apply Z.eqb_neq; lia).
    rewrite Hz.
    destruct (Z.to_nat
                ((Z.of_nat (length (App.drop_duplicates items_df)) +
                  cols_per_row - 1) / cols_per_row)) as [| r]; simpl.
    + right. eexists. reflexivity.
    + left. assert (Hle : (cols_per_row <=? 0)%Z = true) by (apply Z.leb_le; lia).
      now rewrite Hle.
Qed.

Lemma gallery_edge_cases_witness :
  App.render_item_gallery AppSamples.sample_items AppSamples.gallery_title 0 =
    inl App.ZeroDivisionError /\
  (App.render_item_gallery AppSamples.sample_items AppSamples.gallery_title (-4)
     = inl App.InvalidColumnSpec \/
   exists header,
     App.render_item_gallery AppSamples.sample_items AppSamples.gallery_title
       (-4) = inr [App.Markdown header]).
Proof.
  assert (Hne : AppSamples.sample_items <> []) by discriminate.
  assert (Hneg : (-4 < 0)%Z) by lia.
  destruct (gallery_edge_cases AppSamples.sample_items AppSamples.gallery_title
              (-4)) as [_ [Hzero Hnegative]].
  split; [exact (Hzero Hne) | exact (Hnegative Hne Hneg)].
Defined.

(** ** Recommendations in the gallery *)

Lemma pivot_of_columns (data_df : list DataRow) (i : Z) :
  In i (columns (pivot_of data_df)) <->
  exists r, In r data_df /\ Item_ID (row_rating r) = i.
Proof.
  unfold pivot_of, build_pivot_table. simpl.
  rewrite sorted_unique_In, map_map, in_map_iff. split.
  - intros [r [Hr Hin]]. now exists r.
  - intros [r [Hin Hr]]. now exists r.
Qed.

(** The user tab: when [recommend_for_user] on the table's own pivot returns
    a non-empty list, the gallery over the table draws a card for every
    recommended item and for no other item, each once. *)
Theorem recommendation_gallery_complete {V : Type} (ltb : V -> V -> bool)
    (data_df : list DataRow) (usim : DataFrame V) (user_id n : Z) (thr : Q)
    (recs : list Z) (title : String.string) (cols_per_row : Z) :
  recommend_for_user ltb user_id (pivot_of data_df) usim n thr = Ok recs ->
  recs <> [] -> (1 <= cols_per_row)%Z ->
  exists header rows,
    App.render_item_gallery (recommended_items_frame data_df recs) title
      cols_per_row = inr (App.Markdown header :: rows) /\
    Permutation recs
      (map App.Item_ID (map App.card_item (App.cards_of rows))).
Proof.
  intros H Hne Hc.
  assert (Hcols : forall i, In i recs -> In i (columns (pivot_of data_df))).
  { intros i Hi.
    destruct (recommend_for_user_inv _ _ _ _ _ _ H) as [-> | Hinv];
      [contradiction |].
    destruct Hinv as [s [rs [target [_ [Hrs [_ ->]]]]]].
    apply slice_to_incl in Hi. apply filter_In in Hi. destruct Hi as [Hi _].
    rewrite dict_fromkeys_In in Hi. rewrite (collect_In _ _ _ _ Hrs) in Hi.
    destruct Hi as [[] | [u [row [_ [Hloc Hhigh]]]]].
    apply (loc_labels _ _ Hloc). unfold high_rated_items in Hhigh.
    apply in_map_iff in Hhigh. destruct Hhigh as [c [<- Hin]].
    apply filter_In in Hin. apply in_map. tauto. }
  assert (Hnd : NoDup recs).
  { destruct (recommend_for_user_inv _ _ _ _ _ _ H) as [-> | Hinv];
      [constructor |].
    destruct Hinv as [s [rs [target [_ [_ [_ ->]]]]]].
    apply slice_to_NoDup, NoDup_filter, dict_fromkeys_NoDup. }
  assert (Hids : forall i, In i (map App.Item_ID
                                   (recommended_items_frame data_df recs)) <->
                           In i recs).
  { intros i. unfold recommended_items_frame. rewrite map_map. simpl.
    rewrite in_map_iff. split.
    - intros [r [<- Hr]]. apply filter_In in Hr. apply contains_In. tauto.
    - intros Hi. destruct (proj1 (pivot_of_columns data_df i) (Hcols i Hi))
        as [r [Hr Hid]].
      exists r. split; [assumption |]. apply filter_In. split; [assumption |].
      apply contains_In. now rewrite Hid. }
  assert (Hframe : recommended_items_frame data_df recs <> []).
  { destruct recs as [| i t]; [contradiction |].
    intros E. assert (Hi : In i (i :: t)) by now left.
    apply Hids in Hi. rewrite E in Hi. contradiction. }
  destruct (@gallery_layout (recommended_items_frame data_df recs) title
              cols_per_row Hframe Hc) as [header [rows [Hr [Hm _]]]].
  exists header, rows. split; [exact Hr |].
  apply NoDup_Permutation; [assumption | |].
  - rewrite Hm. apply drop_duplicates_NoDup.
  - intros i. rewrite Hm, drop_duplicates_ids. symmetry. apply Hids.
Qed.

Lemma recommendation_gallery_complete_witness :
  exists header rows,
    App.render_item_gallery (recommended_items_frame scenario_table [30%Z])
      AppSamples.gallery_title 4 = inr (App.Markdown header :: rows) /\
    Permutation [30%Z]
      (map App.Item_ID (map App.card_item (App.cards_of rows))).
Proof.
  apply (@recommendation_gallery_complete Q Qltb scenario_table
           scenario_similarity 1 2 3 [30%Z]).
  - reflexivity.
  - discriminate.
  - lia.
Defined.

(** * The sample-data generator *)

Lemma lookup_Some_iff {V : Type} (label : Z) (s : Series V) :
  (exists v, lookup label s = Some v) <-> In label (map fst s).
Proof.
  induction s as [| [l v] rest IH]; simpl.
  - split; [intros [v H]; discriminate | tauto].
  - destruct (Z.eqb_spec label l) as [-> | Hne].
    + split; [tauto | intros _; now exists v].
    + rewrite IH. split; [tauto | intros [H | H]; [now elim Hne | assumption]].
Qed.

Lemma traverse_Forall2 {A B : Type} (e : Data.GenError) (f : A -> option B)
    (l : list A) (ys : list B) :
  Data.traverse e f l = inr ys -> Forall2 (fun x y => f x = Some y) l ys.
Proof.
  revert ys. induction l as [| x t IH]; simpl; intros ys.
  - intros [= <-]. constructor.
  - destruct (f x) as [y |] eqn:E; [| discriminate].
    destruct (Data.traverse e f t) as [e' | zs]; [discriminate |].
    intros [= <-]. constructor; [assumption | now apply IH].
Qed.

Lemma traverse_total {A B : Type} (e : Data.GenError) (f : A -> option B)
    (l : list A) :
  Forall (fun x => exists y, f x = Some y) l ->
  exists ys, Data.traverse e f l = inr ys.
Proof.
  intros H. induction H as [| x t [y Hy] _ [ys IH]]; simpl.
  - now eexists.
  - rewrite Hy, IH. now eexists.
Qed.

Lemma Forall2_combine_In {A B : Type} (R : A -> B -> Prop) (l : list A)
    (ys : list B) (x : A) (y : B) :
  Forall2 R l ys -> In (x, y) (combine l ys) -> R x y.
Proof.
  intros H. induction H as [| a b l ys Hab _ IH]; simpl; [contradiction |].
  intros [[= -> ->] | Hin]; [assumption | now apply IH].
Qed.

Lemma nested_combine_In {A B C D : Type} (l1 : list A) (l2 : list B)
    (l3 : list C) (l4 : list D) (a : A) (b : B) (c : C) (d : D) :
  In (a, (b, (c, d))) (combine l1 (combine l2 (combine l3 l4))) ->
  In b l2 /\ In (a, c) (combine l1 l3) /\ In (a, d) (combine l1 l4).
Proof.
  revert l2 l3 l4. induction l1 as [| x1 l1 IH]; intros l2 l3 l4;
    [simpl; contradiction |].
  destruct l2 as [| x2 l2]; [simpl; contradiction |].
  destruct l3 as [| x3 l3]; [simpl; contradiction |].
  destruct l4 as [| x4 l4]; [simpl; contradiction |].
  simpl. intros [[= -> -> -> ->] | Hin]; [tauto |].
  destruct (IH _ _ _ Hin) as [H2 [H3 H4]]. tauto.
Qed.

Lemma py_index_in_range {A : Type} (l : list A) (i : Z) :
  (1 <= i <= Z.of_nat (length l))%Z ->
  exists c, Data.py_index l (i - 1) = Some c /\ In c l.
Proof.
  intros Hi. unfold Data.py_index.
  assert (H0 : (i - 1 <? 0)%Z = false) by (apply Z.ltb_ge; lia).
  rewrite H0, H0.
  destruct (nth_error l (Z.to_nat (i - 1))) as [c |] eqn:N.
  - exists c. split; [reflexivity |]. now apply nth_error_In in N.
  - apply nth_error_None in N. lia.
Qed.

Lemma price_key_present (n : nat) (values : list Q) (i : Z) :
  length values = n -> (1 <= i <= Z.of_nat n)%Z ->
  exists p, lookup i (combine (map Z.of_nat (seq 1 n)) values) = Some p.
Proof.
  intros Hlen Hi. apply lookup_Some_iff.
  rewrite map_fst_combine by (now rewrite length_map, length_seq).
  apply in_map_iff. exists (Z.to_nat i). split; [lia |].
  apply in_seq. lia.
Qed.

Section GeneratorFacts.

Variable rng : Type.
Variable seed_state : Z -> rng.
Variable randbelow : Z -> rng -> nat * rng.
Variable uniform_rounded : Q -> Q -> rng -> Q * rng.

(** [_randbelow(n)] draws below [n]. *)
Hypothesis randbelow_range :
  forall n g, (0 < n)%Z -> (Z.of_nat (fst (randbelow n g)) < n)%Z.

Lemma repeat_draw_total {A : Type} (P : A -> Prop)
    (draw : rng -> Data.GenError + (A * rng)) :
  (forall g, exists x g', draw g = inr (x, g') /\ P x) ->
  forall n g, exists xs g',
    Data.repeat_draw n draw g = inr (xs, g') /\
    length xs = n /\ Forall P xs.
Proof.
  intros Hdraw. induction n as [| k IH]; intros g; simpl.
  - exists [], g. repeat split. constructor.
  - destruct (Hdraw g) as [x [g1 [-> Hx]]].
    destruct (IH g1) as [xs [g2 [-> [Hlen Hall]]]].
    exists (x :: xs), g2. repeat split; [simpl; now rewrite Hlen |].
    now constructor.
Qed.

Lemma repeat_draw_inv {A : Type} (P : A -> Prop)
    (draw : rng -> Data.GenError + (A * rng)) :
  (forall g x g', draw g = inr (x, g') -> P x) ->
  forall n g xs g',
    Data.repeat_draw n draw g = inr (xs, g') ->
    length xs = n /\ Forall P xs.
Proof.
  intros Hdraw. induction n as [| k IH]; intros g xs g'; simpl.
  - intros [= <- <-]. split; [reflexivity | constructor].
  - destruct (draw g) as [e | [x g1]] eqn:D; [discriminate |].
    destruct (Data.repeat_draw k draw g1) as [e | [ys g2]] eqn:R;
      [discriminate |].
    intros [= <- <-]. destruct (IH _ _ _ R) as [Hlen Hall].
    split; [simpl; now rewrite Hlen |].
    constructor; [exact (Hdraw _ _ _ D) | exact Hall].
Qed.

Lemma randint_total (a b : Z) (g : rng) :
  (a <= b)%Z ->
  exists x g', Data.randint randbelow a b g = inr (x, g') /\ (a <= x <= b)%Z.
Proof.
  intros Hab. unfold Data.randint.
  assert (Hw : (b - a + 1 <=? 0)%Z = false) by (apply Z.leb_gt; lia).
  rewrite Hw. pose proof (@randbelow_range (b - a + 1)%Z g) as Hr.
  destruct (randbelow (b - a + 1)%Z g) as [k g']. simpl in Hr.
  exists (a + Z.of_nat k)%Z, g'. split; [reflexivity | lia].
Qed.

Lemma randint_inv (a b : Z) (g : rng) (x : Z) (g' : rng) :
  Data.randint randbelow a b g = inr (x, g') -> (a <= x <= b)%Z.
Proof.
  unfold Data.randint. destruct (b - a + 1 <=? 0)%Z eqn:Hw; [discriminate |].
  apply Z.leb_gt in Hw. pose proof (@randbelow_range (b - a + 1)%Z g) as Hr.
  destruct (randbelow (b - a + 1)%Z g) as [k g1]. simpl in Hr.
  intros [= <- <-]. lia.
Qed.

Lemma choice_total {A : Type} (l : list A) (g : rng) :
  l <> [] ->
  exists x g', Data.choice randbelow l g = inr (x, g') /\ In x l.
Proof.
  intros Hne. unfold Data.choice. destruct l as [| y t] eqn:E; [contradiction |].
  rewrite <- E.
  pose proof (@randbelow_range (Z.of_nat (length l)) g) as Hr.
  destruct (randbelow (Z.of_nat (length l)) g) as [k g'] eqn:D. simpl in Hr.
  destruct (nth_error l k) as [x |] eqn:N.
  - exists x, g'. split; [reflexivity |]. now apply nth_error_In in N.
  - apply nth_error_None in N.
    assert (length l <> 0%nat) by (rewrite E; discriminate). lia.
Qed.

Lemma choice_inv {A : Type} (l : list A) (g : rng) (x : A) (g' : rng) :
  Data.choice randbelow l g = inr (x, g') -> In x l.
Proof.
  unfold Data.choice. destruct l as [| y t] eqn:E; [discriminate |].
  rewrite <- E. destruct (randbelow (Z.of_nat (length l)) g) as [k g1].
  destruct (nth_error l k) as [z |] eqn:N; [| discriminate].
  intros [= <- <-]. now apply nth_error_In in N.
Qed.

Lemma py_index_In {A : Type} (l : list A) (j : Z) (c : A) :
  Data.py_index l j = Some c -> In c l.
Proof.
  unfold Data.py_index.
  destruct ((if (j <? 0)%Z then (j + Z.of_nat (length l))%Z else j) <? 0)%Z;
    [discriminate |].
  apply nth_error_In.
Qed.

(** What a returned table is made of. *)
Lemma generate_rows (num_users num_items : Z)
    (categories : option (list String.string)) (price_range : Q * Q)
    (seed : option Z) (g : rng) (data : list DataRow) (g' : rng) :
  Data.generate_synthetic_fashion_data seed_state randbelow uniform_rounded
    num_users num_items categories price_range seed g = inr (data, g') ->
  exists (item_categories : list String.string) (prices : Series Q),
    length data = Z.to_nat (num_users * 10) /\
    forall row, In row data ->
      exists u i r c p,
        row = mkDataRow (mkRating u i (inject_Z r)) (Some c) (Some p) /\
        (1 <= u <= num_users)%Z /\ (1 <= i <= num_items)%Z /\
        (1 <= r <= 5)%Z /\
        In c (match categories with
              | Some cs => cs
              | None => Data.default_categories
              end) /\
        Data.py_index item_categories (i - 1) = Some c /\
        lookup i prices = Some p.
Proof.
  unfold Data.generate_synthetic_fashion_data. cbv zeta.
  set (g0 := match seed with Some s => seed_state s | None => g end).
  set (cats := match categories with
               | Some cs => cs
               | None => Data.default_categories
               end).
  set (n := Z.to_nat (num_users * 10)).
  destruct (Data.repeat_draw n (Data.randint randbelow 1 num_users) g0)
    as [e | [user_ids g1]] eqn:E1; [discriminate |].
  destruct (Data.repeat_draw n (Data.randint randbelow 1 num_items) g1)
    as [e | [item_ids g2]] eqn:E2; [discriminate |].
  destruct (Data.repeat_draw n (Data.randint randbelow 1 5) g2)
    as [e | [ratings g3]] eqn:E3; [discriminate |].
  destruct (Data.repeat_draw (Z.to_nat num_items) (Data.choice randbelow cats) g3)
    as [e | [item_categories g4]] eqn:E4; [discriminate |].
  destruct (Data.repeat_draw (Z.to_nat num_items)
              (fun s => inr (uniform_rounded (fst price_range)
                               (snd price_range) s)) g4)
    as [e | [price_values g5]] eqn:E5; [discriminate |].
  set (prices := combine (map Z.of_nat (seq 1 (Z.to_nat num_items)))
                   price_values).
  destruct (Data.traverse Data.BadIndex
              (fun item_id => Data.py_index item_categories (item_id - 1))
              item_ids) as [e | category_column] eqn:E6; [discriminate |].
  destruct (Data.traverse Data.MissingKey
              (fun item_id => lookup item_id prices) item_ids)
    as [e | price_column] eqn:E7; [discriminate |].
  intros [= <- <-].
  destruct (@repeat_draw_inv Z (fun x => (1 <= x <= num_users)%Z)
              (Data.randint randbelow 1 num_users)
              (@randint_inv 1%Z num_users) _ _ _ _ E1) as [L1 F1].
  destruct (@repeat_draw_inv Z (fun x => (1 <= x <= num_items)%Z)
              (Data.randint randbelow 1 num_items)
              (@randint_inv 1%Z num_items) _ _ _ _ E2) as [L2 F2].
  destruct (@repeat_draw_inv Z (fun x => (1 <= x <= 5)%Z)
              (Data.randint randbelow 1 5)
              (@randint_inv 1%Z 5%Z) _ _ _ _ E3) as [L3 F3].
  destruct (@repeat_draw_inv String.string (fun x => In x cats)
              (Data.choice randbelow cats)
              (@choice_inv String.string cats) _ _ _ _ E4) as [L4 F4].
  apply traverse_Forall2 in E6, E7.
  pose proof (Forall2_length E6) as L6. pose proof (Forall2_length E7) as L7.
  exists item_categories, prices. split.
  - rewrite length_map, !length_combine. lia.
  - intros row Hrow. apply in_map_iff in Hrow.
    destruct Hrow as [[u [i [r [c p]]]] [<- Hin]]. simpl.
    exists u, i, r, c, p. split; [reflexivity |].
    pose proof (in_combine_l _ _ _ _ Hin) as Hu.
    apply in_combine_r in Hin.
    pose proof (in_combine_l _ _ _ _ Hin) as Hi.
    destruct (nested_combine_In _ _ _ _ _ _ _ _ Hin) as [Hr [Hc Hp]].
    rewrite Forall_forall in F1, F2, F3, F4.
    pose proof (@Forall2_combine_In _ _ _ _ _ _ _ E6 Hc) as Hcat.
    pose proof (@Forall2_combine_In _ _ _ _ _ _ _ E7 Hp) as Hprice.
    simpl in Hcat, Hprice.
    repeat split; try (now apply F1); try (now apply F2); try (now apply F3);
      try assumption.
    apply F4. exact (py_index_In _ _ Hcat).
Qed.

(** With at least one user, at least one item and a non-empty category
    list (the default list when none is given), the generator returns a
    table of ten rows per user. *)
Theorem generator_returns_ten_rows_per_user (num_users num_items : Z)
    (categories : option (list String.string)) (price_range : Q * Q)
    (seed : option Z) (g : rng) :
  (1 <= num_users)%Z -> (1 <= num_items)%Z -> categories <> Some [] ->
  exists data g',
    Data.generate_synthetic_fashion_data seed_state randbelow uniform_rounded
      num_users num_items categories price_range seed g = inr (data, g') /\
    Z.of_nat (length data) = (10 * num_users)%Z.
Proof.
  intros Hu Hi Hcats.
  unfold Data.generate_synthetic_fashion_data. cbv zeta.
  set (g0 := match seed with Some s => seed_state s | None => g end).
  set (cats := match categories with
               | Some cs => cs
               | None => Data.default_categories
               end).
  assert (Hne : cats <> []).
  { unfold cats. destruct categories as [cs |]; [| discriminate].
    intros E. apply Hcats. now rewrite E. }
  set (n := Z.to_nat (num_users * 10)).
  destruct (@repeat_draw_total Z (fun x => (1 <= x <= num_users)%Z)
              (Data.randint randbelow 1 num_users)
              (fun s => @randint_total 1%Z num_users s Hu) n g0)
    as [user_ids [g1 [E1 [L1 F1]]]].
  rewrite E1.
  destruct (@repeat_draw_total Z (fun x => (1 <= x <= num_items)%Z)
              (Data.randint randbelow 1 num_items)
              (fun s => @randint_total 1%Z num_items s Hi) n g1)
    as [item_ids [g2 [E2 [L2 F2]]]].
  rewrite E2.
  assert (H15 : (1 <= 5)%Z) by lia.
  destruct (@repeat_draw_total Z (fun x => (1 <= x <= 5)%Z)
              (Data.randint randbelow 1 5)
              (fun s => @randint_total 1%Z 5%Z s H15) n g2)
    as [ratings [g3 [E3 [L3 F3]]]].
  rewrite E3.
  destruct (@repeat_draw_total String.string (fun x => In x cats)
              (Data.choice randbelow cats)
              (fun s => @choice_total String.string cats s Hne)
              (Z.to_nat num_items) g3)
    as [item_categories [g4 [E4 [L4 F4]]]].
  rewrite E4.
  destruct (@repeat_draw_total Q (fun _ => True)
              (fun s => inr (uniform_rounded (fst price_range)
                               (snd price_range) s))
              (fun s => ex_intro _ _ (ex_intro _ _
                          (conj (f_equal inr (surjective_pairing _)) I)))
              (Z.to_nat num_items) g4)
    as [price_values [g5 [E5 [L5 _]]]].
  rewrite E5.
  destruct (@traverse_total Z String.string Data.BadIndex
              (fun item_id => Data.py_index item_categories (item_id - 1))
              item_ids) as [category_column E6].
  { eapply Forall_impl; [| exact F2]. intros i Hrange. simpl in Hrange.
    destruct (@py_index_in_range _ item_categories i) as [c [Hc _]];
      [rewrite L4; lia | now exists c]. }
  rewrite E6.
  destruct (@traverse_total Z Q Data.MissingKey
              (fun item_id =>
                 lookup item_id
                   (combine (map Z.of_nat (seq 1 (Z.to_nat num_items)))
                      price_values))
              item_ids) as [price_column E7].
  { eapply Forall_impl; [| exact F2]. intros i Hrange. simpl in Hrange.
    apply price_key_present; [exact L5 | lia]. }
  rewrite E7.
  eexists. eexists. split; [reflexivity |].
  apply traverse_Forall2 in E6, E7.
  pose proof (Forall2_length E6). pose proof (Forall2_length E7).
  rewrite length_map, !length_combine. unfold n in *. lia.
Qed.

(** Every row of a returned table has a user id between 1 and [num_users],
    an item id between 1 and [num_items], an integer rating between 1 and 5,
    a category taken from the category list, and a price. *)
Theorem generated_rows_in_range (num_users num_items : Z)
    (categories : option (list String.string)) (price_range : Q * Q)
    (seed : option Z) (g : rng) (data : list DataRow) (g' : rng) :
  Data.generate_synthetic_fashion_data seed_state randbelow uniform_rounded
    num_users num_items categories price_range seed g = inr (data, g') ->
  forall row, In row data ->
    (1 <= User_ID (row_rating row) <= num_users)%Z /\
    (1 <= Item_ID (row_rating row) <= num_items)%Z /\
    (exists r, Rating (row_rating row) = inject_Z r /\ (1 <= r <= 5)%Z) /\
    (exists c, row_Category row = Some c /\
               In c (match categories with
                     | Some cs => cs
                     | None => Data.default_categories
                     end)) /\
    (exists p, row_Price row = Some p).
Proof.
  intros H row Hrow.
  destruct (generate_rows _ _ _ _ _ _ H) as [ic [prices [_ Hrows]]].
  destruct (Hrows row Hrow) as [u [i [r [c [p [-> [Hu [Hi [Hr [Hc _]]]]]]]]]].
  simpl. repeat split; try lia.
  - now exists r.
  - now exists c.
  - now exists p.
Qed.

(** In a returned table the category and the price are functions of the
    item: two rows with the same item id carry the same category and the
    same price. *)
Theorem generated_metadata_by_item (num_users num_items : Z)
    (categories : option (list String.string)) (price_range : Q * Q)
    (seed : option Z) (g : rng) (data : list DataRow) (g' : rng) :
  Data.generate_synthetic_fashion_data seed_state randbelow uniform_rounded
    num_users num_items categories price_range seed g = inr (data, g') ->
  forall row row', In row data -> In row' data ->
    Item_ID (row_rating row) = Item_ID (row_rating row') ->
    row_Category row = row_Category row' /\ row_Price row = row_Price row'.
Proof.
  intros H row row' Hrow Hrow' Hid.
  destruct (generate_rows _ _ _ _ _ _ H) as [ic [prices [_ Hrows]]].
  destruct (Hrows row Hrow)
    as [u [i [r [c [p [-> [_ [_ [_ [_ [Hc Hp]]]]]]]]]]].
  destruct (Hrows row' Hrow')
    as [u' [i' [r' [c' [p' [-> [_ [_ [_ [_ [Hc' Hp']]]]]]]]]]].
  simpl in *. subst i'. split; congruence.
Qed.

(** The generator on its edges: without users and items it returns the
    empty table; with users but no item the first item draw fails on an
    empty range; with items but an empty category list the first category
    choice fails on an empty sequence. *)
Theorem generator_edge_cases (num_users num_items : Z)
    (categories : option (list String.string)) (price_range : Q * Q)
    (seed : option Z) (g : rng) :
  ((num_users <= 0)%Z -> (num_items <= 0)%Z ->
   Data.generate_synthetic_fashion_data seed_state randbelow uniform_rounded
     num_users num_items categories price_range seed g =
   inr ([], match seed with Some s => seed_state s | None => g end)) /\
  ((1 <= num_users)%Z -> (num_items <= 0)%Z ->
   Data.generate_synthetic_fashion_data seed_state randbelow uniform_rounded
     num_users num_items categories price_range seed g =
   inl Data.EmptyRange) /\
  ((1 <= num_items)%Z -> categories = Some [] ->
   Data.generate_synthetic_fashion_data seed_state randbelow uniform_rounded
     num_users num_items categories price_range seed g =
   inl Data.EmptySequence).
Proof.
  unfold Data.generate_synthetic_fashion_data. cbv zeta.
  set (g0 := match seed with Some s => seed_state s | None => g end).
  split; [| split].
  - intros Hu Hi.
    assert (Hn : Z.to_nat (num_users * 10) = 0%nat) by lia.
    assert (Hm : Z.to_nat num_items = 0%nat) by lia.
    rewrite Hn, Hm. reflexivity.
  - intros Hu Hi.
    destruct (@repeat_draw_total Z (fun x => (1 <= x <= num_users)%Z)
                (Data.randint randbelow 1 num_users)
                (fun s => @randint_total 1%Z num_users s Hu)
                (Z.to_nat (num_users * 10)) g0)
      as [user_ids [g1 [E1 _]]].
    rewrite E1.
    destruct (Z.to_nat (num_users * 10)) as [| k] eqn:Hn; [lia |].
    simpl. unfold Data.randint.
    assert (Hw : (num_items - 1 + 1 <=? 0)%Z = true) by (apply Z.leb_le; lia).
    now rewrite Hw.
  - intros Hi ->.
    assert (Hdraws : forall a b s, (a <= b)%Z -> exists xs s',
              Data.repeat_draw (Z.to_nat (num_users * 10))
                (Data.randint randbelow a b) s = inr (xs, s')).
    { intros a b s Hab.
      destruct (@repeat_draw_total Z (fun x => (a <= x <= b)%Z)
                  (Data.randint randbelow a b)
                  (fun s => @randint_total a b s Hab)
                  (Z.to_nat (num_users * 10)) s) as [xs [s' [E _]]].
      now exists xs, s'. }
    destruct (Z.to_nat num_items) as [| m] eqn:Hm; [lia |].
    destruct (Z_le_gt_dec 1 num_users) as [Hu | Hu].
    + destruct (Hdraws 1%Z num_users g0 Hu) as [xs1 [s1 ->]].
      destruct (Hdraws 1%Z num_items s1 Hi) as [xs2 [s2 ->]].
      destruct (Hdraws 1%Z 5%Z s2) as [xs3 [s3 ->]]; [lia |].
      reflexivity.
    + assert (Hn : Z.to_nat (num_users * 10) = 0%nat) by lia.
      rewrite Hn. reflexivity.
Qed.

(** A table generated for at least one user is accepted by the similarity
    engine: it is not empty, and both similarity frames of its pivot are
    returned. *)
Theorem generated_table_has_similarities (num_users num_items : Z)
    (categories : option (list String.string)) (price_range : Q * Q)
    (seed : option Z) (g : rng) (data : list DataRow) (g' : rng) :
  (1 <= num_users)%Z ->
  Data.generate_synthetic_fashion_data seed_state randbelow uniform_rounded
    num_users num_items categories price_range seed g = inr (data, g') ->
  data <> [] /\
  exists usim isim,
    compute_user_similarity (pivot_of data) = Ok usim /\
    compute_item_similarity (pivot_of data) = Ok isim.
Proof.
  intros Hu H.
  destruct (generate_rows _ _ _ _ _ _ H) as [ic [prices [Hlen _]]].
  assert (Hne : data <> []).
  { intros E. rewrite E in Hlen. simpl in Hlen. lia. }
  split; [exact Hne |].
  assert (Hr : map row_rating data <> []).
  { intros E. apply map_eq_nil in E. contradiction. }
  destruct (build_pivot_table_nonempty Hr) as [Hrows Hcols].
  destruct (@compute_user_similarity_Ok _ Hrows Hcols) as [usim Hus].
  destruct (@compute_item_similarity_Ok _ Hrows Hcols) as [isim His].
  now exists usim, isim.
Qed.

End GeneratorFacts.

Lemma sample_randbelow_range (n g : Z) :
  (0 < n)%Z -> (Z.of_nat (fst (SampleRng.randbelow n g)) < n)%Z.
Proof.
  intros Hn. unfold SampleRng.randbelow. simpl.
  pose proof (Z.mod_pos_bound g n Hn). lia.
Qed.

Lemma generator_returns_ten_rows_per_user_witness :
  exists data g',
    Data.generate_synthetic_fashion_data SampleRng.seed_state
      SampleRng.randbelow SampleRng.uniform_rounded 2 3 None (20, 100)%Q
      (Some 42%Z) 0%Z = inr (data, g') /\
    Z.of_nat (length data) = 20%Z.
Proof.
  apply (@generator_returns_ten_rows_per_user Z SampleRng.seed_state
           SampleRng.randbelow SampleRng.uniform_rounded
           sample_randbelow_range 2 3 None (20, 100)%Q (Some 42%Z) 0%Z).
  - lia.
  - lia.
  - discriminate.
Defined.

Lemma generated_rows_in_range_witness :
  exists data g' row,
    Data.generate_synthetic_fashion_data SampleRng.seed_state
      SampleRng.randbelow SampleRng.uniform_rounded 1 3 None (20, 100)%Q
      (Some 42%Z) 0%Z = inr (data, g') /\
    In row data /\
    (1 <= User_ID (row_rating row) <= 1)%Z /\
    (1 <= Item_ID (row_rating row) <= 3)%Z.
Proof.
  eexists. eexists. eexists.
  split; [vm_compute; reflexivity |].
  split; [now left |].
  assert (H := @generated_rows_in_range Z SampleRng.seed_state
                 SampleRng.randbelow SampleRng.uniform_rounded
                 sample_randbelow_range 1 3 None (20, 100)%Q (Some 42%Z) 0%Z).
  specialize (H _ _ eq_refl _ (or_introl eq_refl)).
  split; [exact (proj1 H) | exact (proj1 (proj2 H))].
Defined.

Lemma generated_metadata_by_item_witness :
  exists data g',
    Data.generate_synthetic_fashion_data SampleRng.seed_state
      SampleRng.randbelow SampleRng.uniform_rounded 1 3 None (20, 100)%Q
      (Some 42%Z) 0%Z = inr (data, g') /\
    forall row row', In row data -> In row' data ->
      Item_ID (row_rating row) = Item_ID (row_rating row') ->
      row_Category row = row_Category row' /\ row_Price row = row_Price row'.
Proof.
  eexists. eexists. split; [vm_compute; reflexivity |].
  eapply (@generated_metadata_by_item Z SampleRng.seed_state
           SampleRng.randbelow SampleRng.uniform_rounded
           sample_randbelow_range 1 3 None (20, 100)%Q (Some 42%Z) 0%Z).
  reflexivity.
Defined.

Lemma generator_edge_cases_witness :
  Data.generate_synthetic_fashion_data SampleRng.seed_state
    SampleRng.randbelow SampleRng.uniform_rounded 0 0 None (20, 100)%Q
    (Some 42%Z) 0%Z = inr ([], 42%Z) /\
  Data.generate_synthetic_fashion_data SampleRng.seed_state
    SampleRng.randbelow SampleRng.uniform_rounded 2 0 None (20, 100)%Q
    (Some 42%Z) 0%Z = inl Data.EmptyRange /\
  Data.generate_synthetic_fashion_data SampleRng.seed_state
    SampleRng.randbelow SampleRng.uniform_rounded 2 3 (Some []) (20, 100)%Q
    (Some 42%Z) 0%Z = inl Data.EmptySequence.
Proof.
  split; [| split].
  - apply (proj1 (@generator_edge_cases Z SampleRng.seed_state
                    SampleRng.randbelow SampleRng.uniform_rounded
                    sample_randbelow_range 0 0 None (20, 100)%Q
                    (Some 42%Z) 0%Z)); lia.
  - apply (proj1 (proj2 (@generator_edge_cases Z SampleRng.seed_state
                           SampleRng.randbelow SampleRng.uniform_rounded
                           sample_randbelow_range 2 0 None (20, 100)%Q
                           (Some 42%Z) 0%Z))); lia.
  - apply (proj2 (proj2 (@generator_edge_cases Z SampleRng.seed_state
                           SampleRng.randbelow SampleRng.uniform_rounded
                           sample_randbelow_range 2 3 (Some []) (20, 100)%Q
                           (Some 42%Z) 0%Z))); [lia | reflexivity].
Defined.

Lemma generated_table_has_similarities_witness :
  exists data g',
    Data.generate_synthetic_fashion_data SampleRng.seed_state
      SampleRng.randbelow SampleRng.uniform_rounded 1 3 None (20, 100)%Q
      (Some 42%Z) 0%Z = inr (data, g') /\
    data <> [] /\
    exists usim isim,
      compute_user_similarity (pivot_of data) = Ok usim /\
      compute_item_similarity (pivot_of data) = Ok isim.
Proof.
  eexists. eexists. split; [vm_compute; reflexivity |].
  eapply (@generated_table_has_similarities Z SampleRng.seed_state
           SampleRng.randbelow SampleRng.uniform_rounded
           sample_randbelow_range 1 3 None (20, 100)%Q (Some 42%Z) 0%Z);
    [lia | reflexivity].
Defined.
